(** * mp-earnings: the record normalizer and the incremental sync engine

    A shallow embedding of [src/scraper.py].  The Python functions
    [compute_hash], [process_earnings_data], [sync_to_database],
    [fetch_csv], [fetch_all_data] and [init_database] are transcribed as
    Rocq functions over
    - Python scalars ([pyval]) for the cells of a pandas row,
    - Python dicts with string keys ([gmap string pyval]) for the
      normalized record,
    - two SQLite tables (lists of rows in insertion order) behind a
      connection whose pending transaction is kept apart from the
      committed database,
    - a state-and-exception monad for the statements that touch the
      connection or may raise,
    - the bind of the parameters of a statement by [cursor.execute]
      ([execute]), which raises on an int that does not fit 64 bits. *)

From Stdlib Require Import ZArith Ascii String List Lia Floats.SpecFloat.
From stdpp Require Import base option list strings gmap pretty.

Local Open Scope string_scope.
Local Open Scope Z_scope.

(** ** MD5 (RFC 1321), as [hashlib.md5(bytes).hexdigest()] *)

Module MD5.

Definition mask32 : Z := 0xffffffff.

Definition add32 (x y : Z) : Z := Z.land (x + y) mask32.

Definition not32 (x : Z) : Z := Z.lxor x mask32.

Definition rotl32 (x : Z) (c : Z) : Z :=
  Z.land (Z.lor (Z.shiftl x c) (Z.shiftr x (32 - c))) mask32.

(** Per-round shift amounts. *)
Definition S_table : list Z :=
  [ 7; 12; 17; 22; 7; 12; 17; 22; 7; 12; 17; 22; 7; 12; 17; 22;
    5; 9; 14; 20; 5; 9; 14; 20; 5; 9; 14; 20; 5; 9; 14; 20;
    4; 11; 16; 23; 4; 11; 16; 23; 4; 11; 16; 23; 4; 11; 16; 23;
    6; 10; 15; 21; 6; 10; 15; 21; 6; 10; 15; 21; 6; 10; 15; 21 ].

(** [K_table[i] = floor(2^32 * abs(sin(i + 1)))]. *)
Definition K_table : list Z :=
  [ 0xd76aa478; 0xe8c7b756; 0x242070db; 0xc1bdceee;
    0xf57c0faf; 0x4787c62a; 0xa8304613; 0xfd469501;
    0x698098d8; 0x8b44f7af; 0xffff5bb1; 0x895cd7be;
    0x6b901122; 0xfd987193; 0xa679438e; 0x49b40821;
    0xf61e2562; 0xc040b340; 0x265e5a51; 0xe9b6c7aa;
    0xd62f105d; 0x02441453; 0xd8a1e681; 0xe7d3fbc8;
    0x21e1cde6; 0xc33707d6; 0xf4d50d87; 0x455a14ed;
    0xa9e3e905; 0xfcefa3f8; 0x676f02d9; 0x8d2a4c8a;
    0xfffa3942; 0x8771f681; 0x6d9d6122; 0xfde5380c;
    0xa4beea44; 0x4bdecfa9; 0xf6bb4b60; 0xbebfbc70;
    0x289b7ec6; 0xeaa127fa; 0xd4ef3085; 0x04881d05;
    0xd9d4d039; 0xe6db99e5; 0x1fa27cf8; 0xc4ac5665;
    0xf4292244; 0x432aff97; 0xab9423a7; 0xfc93a039;
    0x655b59c3; 0x8f0ccc92; 0xffeff47d; 0x85845dd1;
    0x6fa87e4f; 0xfe2ce6e0; 0xa3014314; 0x4e0811a1;
    0xf7537e82; 0xbd3af235; 0x2ad7d2bb; 0xeb86d391 ].

Definition nthZ (l : list Z) (i : Z) : Z := nth (Z.to_nat i) l 0.

Record state := mk_state { sA : Z; sB : Z; sC : Z; sD : Z }.

Definition init_state : state :=
  mk_state 0x67452301 0xefcdab89 0x98badcfe 0x10325476.

(** One of the 64 operations on the sixteen words [M] of a block. *)
Definition round (M : list Z) (st : state) (i : Z) : state :=
  let '(mk_state A B C D) := st in
  let '(F, g) :=
    if i <? 16 then (Z.lor (Z.land B C) (Z.land (not32 B) D), i)
    else if i <? 32 then
      (Z.lor (Z.land D B) (Z.land (not32 D) C), (5 * i + 1) mod 16)
    else if i <? 48 then (Z.lxor B (Z.lxor C D), (3 * i + 5) mod 16)
    else (Z.lxor C (Z.lor B (not32 D)), (7 * i) mod 16) in
  let F' := add32 (add32 (add32 F A) (nthZ K_table i)) (nthZ M g) in
  mk_state D (add32 B (rotl32 F' (nthZ S_table i))) B C.

Definition rounds : list Z := map Z.of_nat (seq 0 64).

Definition process_block (st : state) (M : list Z) : state :=
  let st' := fold_left (round M) rounds st in
  mk_state (add32 (sA st) (sA st')) (add32 (sB st) (sB st'))
           (add32 (sC st) (sC st')) (add32 (sD st) (sD st')).

(** Little-endian encoding of [x] on [n] bytes. *)
Fixpoint le_bytes (n : nat) (x : Z) : list Z :=
  match n with
  | O => []
  | S n' => Z.land x 0xff :: le_bytes n' (Z.shiftr x 8)
  end.

Fixpoint le_word (bs : list Z) : Z :=
  match bs with
  | [] => 0
  | b :: bs' => Z.lor b (Z.shiftl (le_word bs') 8)
  end.

(** The message followed by 0x80, zeros up to 56 mod 64, and the bit
    length on eight little-endian bytes. *)
Definition pad (msg : list Z) : list Z :=
  let len := Z.of_nat (length msg) in
  let zeros := Z.to_nat ((55 - len) mod 64) in
  msg ++ 0x80 :: repeat 0 zeros ++ le_bytes 8 (Z.land (8 * len) 0xffffffffffffffff).

Fixpoint chunks (fuel : nat) (n : nat) (l : list Z) : list (list Z) :=
  match fuel, l with
  | O, _ | _, [] => []
  | S fuel', _ => firstn n l :: chunks fuel' n (skipn n l)
  end.

Definition words_of_block (blk : list Z) : list Z :=
  map le_word (chunks 16 4 blk).

Definition blocks (bs : list Z) : list (list Z) :=
  map words_of_block (chunks (length bs) 64 bs).

Definition digest (msg : list Z) : list Z :=
  let st := fold_left process_block (blocks (pad msg)) init_state in
  le_bytes 4 (sA st) ++ le_bytes 4 (sB st)
    ++ le_bytes 4 (sC st) ++ le_bytes 4 (sD st).

Definition hex_digit (d : Z) : ascii :=
  nth (Z.to_nat d) (list_ascii_of_string "0123456789abcdef") "0"%char.

Fixpoint hex (bs : list Z) : string :=
  match bs with
  | [] => EmptyString
  | b :: bs' =>
      String (hex_digit (Z.shiftr b 4)) (String (hex_digit (Z.land b 0xf)) (hex bs'))
  end.

(** [str.encode()]: a Rocq string already is its sequence of bytes. *)
Definition encode (s : string) : list Z :=
  map (fun c => Z.of_N (N_of_ascii c)) (list_ascii_of_string s).

Definition hexdigest (s : string) : string := hex (digest (encode s)).

End MD5.

(** ** Python values and exceptions *)

(** A cell of a pandas row after [iterrows()], or [None]: what
    [Series.get] returns for a label the row does not have.  Floats are
    IEEE-754 binary64 data. *)
Inductive pyval :=
| VNone
| VBool (b : bool)
| VInt (n : Z)
| VFloat (x : spec_float)
| VStr (s : string).

Global Instance spec_float_eq_dec : EqDecision spec_float.
Proof. solve_decision. Defined.

Global Instance pyval_eq_dec : EqDecision pyval.
Proof. solve_decision. Defined.

Inductive exn :=
| KeyError (key : string)
| TypeError
| ValueError
| IntegrityError
| OverflowError.

(** The outcome of a Python call: a value, or an exception on its way up. *)
Inductive result (A : Type) :=
| Ok (a : A)
| Raise (e : exn).
Arguments Ok {A} a.
Arguments Raise {A} e.

Global Instance result_ret : MRet result := fun A a => Ok a.

Global Instance result_bind : MBind result := fun A B f r =>
  match r with
  | Ok a => f a
  | Raise e => Raise e
  end.

(** A row of a DataFrame ([pandas.Series]): labelled cells in column
    order, the labels distinct as [read_csv] makes them.  A DataFrame is
    the sequence of its rows. *)
Definition Series : Type := list (string * pyval).
Definition DataFrame : Type := list Series.

(** What the program takes from the Python runtime without defining it:
    [float.__repr__] on a finite non-zero float (sign, mantissa,
    exponent), and [json.dumps(d, default=str)] on the dict of a row,
    which may raise. *)
Class Runtime := {
  float_repr : bool -> positive -> Z -> string;
  json_dumps : Series -> result string
}.

(** [str(v)] *)
Definition py_str `{RT : Runtime} (v : pyval) : string :=
  match v with
  | VNone => "None"
  | VBool true => "True"
  | VBool false => "False"
  | VInt n => pretty n
  | VFloat S754_nan => "nan"
  | VFloat (S754_infinity false) => "inf"
  | VFloat (S754_infinity true) => "-inf"
  | VFloat (S754_zero false) => "0.0"
  | VFloat (S754_zero true) => "-0.0"
  | VFloat (S754_finite s m e) => float_repr s m e
  | VStr s => s
  end.

(** [bool(v)]: [None], [False], zero and the empty string are falsy; a
    NaN is not zero and hence truthy. *)
Definition py_bool (v : pyval) : bool :=
  match v with
  | VNone => false
  | VBool b => b
  | VInt n => negb (n =? 0)
  | VFloat (S754_zero _) => false
  | VFloat _ => true
  | VStr EmptyString => false
  | VStr _ => true
  end.

(** [a or b] *)
Definition py_or (a b : pyval) : pyval := if py_bool a then a else b.

(** [row.get(key)] on a Series: the cell, or [None] without that label. *)
Fixpoint series_get (row : Series) (key : string) : pyval :=
  match row with
  | [] => VNone
  | (k, v) :: rest => if decide (k = key) then v else series_get rest key
  end.

(** [d.get(key, dflt)] and [d[key]] on a dict with string keys. *)
Definition dict_get (d : gmap string pyval) (key : string) (dflt : pyval) : pyval :=
  default dflt (d !! key).

Definition dict_item (d : gmap string pyval) (key : string) : result pyval :=
  match d !! key with
  | Some v => Ok v
  | None => Raise (KeyError key)
  end.

(** ** The record normalizer *)

Definition key_fields : list string :=
  ["member"; "category"; "summary"; "value"; "payer_name"; "received_date"].

(** The local [hash_str] of [compute_hash]. *)
Definition hash_str `{RT : Runtime} (row : gmap string pyval) : string :=
  String.concat "|" (map (fun f => py_str (dict_get row f (VStr ""))) key_fields).

Definition compute_hash `{RT : Runtime} (row : gmap string pyval) : string :=
  MD5.hexdigest (hash_str row).

(** The dict display of lines 74 to 81, given the value of its last
    entry. *)
Definition record_display (row : Series) (category raw_json : string)
  : gmap string pyval :=
  list_to_map
    [ ("category", VStr category);
      ("member", series_get row "member");
      ("party", series_get row "party");
      ("mnis_id", series_get row "mnis_id");
      ("twfy_id", series_get row "twfy_id");
      ("summary", series_get row "summary");
      ("value", series_get row "value");
      ("payer_name", py_or (series_get row "payer_name") (series_get row "donor_name"));
      ("received_date", series_get row "received_date");
      ("registered", series_get row "registered");
      ("published", series_get row "published");
      ("raw_json", VStr raw_json) ].

(** The body of the loop of [process_earnings_data]: the display, whose
    last value is the only one that can raise, then the [hash] entry. *)
Definition normalize_row `{RT : Runtime} (row : Series) (category : string)
  : result (gmap string pyval) :=
  raw_json ← json_dumps row;
  let record := record_display row category raw_json in
  mret (<["hash" := VStr (compute_hash record)]> record).

Fixpoint process_earnings_data `{RT : Runtime} (df : DataFrame) (category : string)
  : result (list (gmap string pyval)) :=
  match df with
  | [] => mret []
  | row :: rest =>
      record ← normalize_row row category;
      records ← process_earnings_data rest category;
      mret (record :: records)
  end.

(** ** The store: the two tables of [init_database] *)

(** [interests]: [id INTEGER PRIMARY KEY, hash TEXT UNIQUE], fourteen more
    columns.  A cell keeps the Python value that was bound to it. *)
Module Interests.
Record row := mk {
  id : Z;
  hash : pyval;
  category : pyval;
  member : pyval;
  party : pyval;
  mnis_id : pyval;
  twfy_id : pyval;
  summary : pyval;
  value : pyval;
  payer_name : pyval;
  received_date : pyval;
  registered : pyval;
  published : pyval;
  raw_json : pyval;
  first_seen : pyval;
  last_seen : pyval
}.
End Interests.

(** [changes]: [id INTEGER PRIMARY KEY AUTOINCREMENT] and seven more
    columns; [old_value] is never bound and stays NULL. *)
Module Changes.
Record row := mk {
  id : Z;
  interest_hash : pyval;
  change_type : pyval;
  detected_at : pyval;
  old_value : pyval;
  new_value : pyval;
  member : pyval;
  category : pyval
}.
End Changes.

Record database := mk_database {
  interests : list Interests.row;
  changes : list Changes.row
}.

Definition empty_database : database := mk_database [] [].

(** A connection: the committed database file, and the database as the
    connection sees it, its uncommitted writes included. *)
Record connection := mk_connection {
  disk : database;
  view : database
}.

(** [sqlite3.connect] on a file that may not exist yet, then
    [CREATE TABLE IF NOT EXISTS] twice and [commit]. *)
Definition init_database (db_file : option database) : connection :=
  let db := default empty_database db_file in
  mk_connection db db.

(** How [sqlite3] hands a Python value to SQLite: [bool] is an [int], and
    a NaN is stored as NULL.  A cell keeps the value so handed over: the
    conversions of the column affinity (a number bound to a TEXT column
    kept as text, 100 bound to the REAL column kept as 100.0) are not
    applied, so a cell is the stored one for text and NULL in the TEXT
    columns, which is what the properties below read. *)
Definition sql_bind (v : pyval) : pyval :=
  match v with
  | VBool b => VInt (if b then 1 else 0)
  | VFloat S754_nan => VNone
  | _ => v
  end.

(** [cell = ?] in a WHERE clause or under a UNIQUE constraint: never true
    of NULL; on text, which is all the program binds to [hash], equality
    of the strings. *)
Definition sql_eq (cell param : pyval) : bool :=
  match cell, param with
  | VNone, _ | _, VNone => false
  | _, _ => bool_decide (cell = param)
  end.

(** The rowid given to the next inserted row. *)
Definition next_id (ids : list Z) : Z := 1 + fold_right Z.max 0 ids.

(** Statements run on a connection: they may change what it sees and
    they may raise. *)
Definition M (A : Type) : Type := connection -> result A * connection.

Global Instance M_ret : MRet M := fun A a c => (Ok a, c).

Global Instance M_bind : MBind M := fun A B f m c =>
  match m c with
  | (Ok a, c') => f a c'
  | (Raise e, c') => (Raise e, c')
  end.

Definition lift {A} (r : result A) : M A := fun c => (r, c).

Definition set_interests (rows : list Interests.row) (c : connection) : connection :=
  mk_connection (disk c) (mk_database rows (changes (view c))).

Definition set_changes (rows : list Changes.row) (c : connection) : connection :=
  mk_connection (disk c) (mk_database (interests (view c)) rows).

(** [SELECT hash FROM interests WHERE hash = ?] and [fetchone()]. *)
Definition select_hash (h : pyval) : M (option pyval) := fun c =>
  (Ok (Interests.hash <$>
         find (fun r => sql_eq (Interests.hash r) (sql_bind h)) (interests (view c))),
   c).

(** [INSERT INTO interests (...) VALUES (?,?,?,?,?,?,?,?,?,?,?,?,?,?,?)]:
    the UNIQUE constraint on [hash] refuses a second row with that hash.
    This is the statement once its parameters are bound; the bind, which
    raises OverflowError on a Python int outside the signed 64 bits, is
    [execute] below. *)
Definition insert_interest
    (hash category member party mnis_id twfy_id summary value payer_name
     received_date registered published raw_json first_seen last_seen : pyval)
  : M unit := fun c =>
  let rows := interests (view c) in
  if existsb (fun r => sql_eq (Interests.hash r) (sql_bind hash)) rows
  then (Raise IntegrityError, c)
  else
    let r :=
      Interests.mk (next_id (map Interests.id rows))
        (sql_bind hash) (sql_bind category) (sql_bind member) (sql_bind party)
        (sql_bind mnis_id) (sql_bind twfy_id) (sql_bind summary) (sql_bind value)
        (sql_bind payer_name) (sql_bind received_date) (sql_bind registered)
        (sql_bind published) (sql_bind raw_json) (sql_bind first_seen)
        (sql_bind last_seen) in
    (Ok tt, set_interests (rows ++ [r]) c).

(** [INSERT INTO changes (interest_hash, change_type, detected_at,
    new_value, member, category) VALUES (?, 'new', ?, ?, ?, ?)]. *)
Definition insert_change (interest_hash detected_at new_value member category : pyval)
  : M unit := fun c =>
  let rows := changes (view c) in
  let r :=
    Changes.mk (next_id (map Changes.id rows))
      (sql_bind interest_hash) (VStr "new") (sql_bind detected_at) VNone
      (sql_bind new_value) (sql_bind member) (sql_bind category) in
  (Ok tt, set_changes (rows ++ [r]) c).

Definition touch (last_seen : pyval) (r : Interests.row) : Interests.row :=
  Interests.mk (Interests.id r) (Interests.hash r) (Interests.category r)
    (Interests.member r) (Interests.party r) (Interests.mnis_id r)
    (Interests.twfy_id r) (Interests.summary r) (Interests.value r)
    (Interests.payer_name r) (Interests.received_date r) (Interests.registered r)
    (Interests.published r) (Interests.raw_json r) (Interests.first_seen r)
    last_seen.

(** [UPDATE interests SET last_seen = ? WHERE hash = ?]. *)
Definition update_last_seen (last_seen hash : pyval) : M unit := fun c =>
  (Ok tt,
   set_interests
     (map (fun r => if sql_eq (Interests.hash r) (sql_bind hash)
                    then touch (sql_bind last_seen) r else r)
          (interests (view c)))
     c).

(** [conn.commit()]. *)
Definition commit : M unit := fun c => (Ok tt, mk_connection (view c) (view c)).

(** ** The sync engine *)

Record Stats := mk_stats { new : Z; total : Z }.

(** The body of the inner loop of [sync_to_database], lines 92 to 107. *)
Definition sync_record (now : string) (record : gmap string pyval) (stats : Stats)
  : M Stats :=
  let stats := mk_stats (new stats) (total stats + 1) in
  h ← lift (dict_item record "hash");
  found ← select_hash h;
  match found with
  | None =>
      hash ← lift (dict_item record "hash");
      category ← lift (dict_item record "category");
      member ← lift (dict_item record "member");
      party ← lift (dict_item record "party");
      mnis_id ← lift (dict_item record "mnis_id");
      twfy_id ← lift (dict_item record "twfy_id");
      summary ← lift (dict_item record "summary");
      value ← lift (dict_item record "value");
      payer_name ← lift (dict_item record "payer_name");
      received_date ← lift (dict_item record "received_date");
      registered ← lift (dict_item record "registered");
      published ← lift (dict_item record "published");
      raw_json ← lift (dict_item record "raw_json");
      insert_interest hash category member party mnis_id twfy_id summary value
        payer_name received_date registered published raw_json
        (VStr now) (VStr now);;
      hash' ← lift (dict_item record "hash");
      summary' ← lift (dict_item record "summary");
      member' ← lift (dict_item record "member");
      category' ← lift (dict_item record "category");
      insert_change hash' (VStr now) summary' member' category';;
      mret (mk_stats (new stats + 1) (total stats))
  | Some _ =>
      hash ← lift (dict_item record "hash");
      update_last_seen (VStr now) hash;;
      mret stats
  end.

(** [for record in process_earnings_data(df, category)]. *)
Fixpoint sync_records (now : string) (records : list (gmap string pyval))
    (stats : Stats) : M Stats :=
  match records with
  | [] => mret stats
  | record :: rest =>
      stats' ← sync_record now record stats;
      sync_records now rest stats'
  end.

(** [for category, df in data.items()]. *)
Fixpoint sync_categories `{RT : Runtime} (now : string) (data : list (string * DataFrame))
    (stats : Stats) : M Stats :=
  match data with
  | [] => mret stats
  | (category, df) :: rest =>
      records ← lift (process_earnings_data df category);
      stats' ← sync_records now records stats;
      sync_categories now rest stats'
  end.

(** [sync_to_database(data, conn)], with [now] the one reading of the
    clock taken on line 88. *)
Definition sync_to_database `{RT : Runtime} (data : list (string * DataFrame))
    (now : string) : M Stats :=
  stats ← sync_categories now data (mk_stats 0 0);
  commit;;
  mret stats.

(** ** Fetching *)

Definition MYSOCIETY_BASE : string :=
  "https://pages.mysociety.org/parl_register_interests/data/commons_rmfi/latest".

Definition CATEGORIES : list (string * string) :=
  [ ("ad_hoc_payments", "category_1.1.csv");
    ("ongoing_employment", "category_1.2.csv");
    ("donations", "category_2.csv");
    ("gifts_uk", "category_3.csv");
    ("visits", "category_4.csv");
    ("gifts_foreign", "category_5.csv");
    ("property", "category_6.csv");
    ("shareholdings", "category_7.csv");
    ("miscellaneous", "category_8.csv");
    ("overall", "overall.csv") ].

(** [d[key]] and [d[key] = v] on a dict kept in insertion order. *)
Fixpoint assoc_item {V} (d : list (string * V)) (key : string) : result V :=
  match d with
  | [] => Raise (KeyError key)
  | (k, v) :: rest => if decide (k = key) then Ok v else assoc_item rest key
  end.

Fixpoint assoc_set {V} (d : list (string * V)) (key : string) (v : V)
  : list (string * V) :=
  match d with
  | [] => [(key, v)]
  | (k, v') :: rest =>
      if decide (k = key) then (k, v) :: rest else (k, v') :: assoc_set rest key v
  end.

(** [df.empty]: no rows, or no columns. *)
Definition df_empty (df : DataFrame) : bool :=
  match df with
  | [] => true
  | [] :: _ => true
  | _ => false
  end.

(** [fetch_csv], with [read_csv] standing for [pd.read_csv] on a URL: the
    lookup of the file name is outside the [try], the download inside. *)
Definition fetch_csv (read_csv : string -> result DataFrame) (category_key : string)
  : result DataFrame :=
  file ← assoc_item CATEGORIES category_key;
  let url := MYSOCIETY_BASE +:+ "/" +:+ file in
  match read_csv url with
  | Ok df => mret df
  | Raise _ => mret []
  end.

(** [for key in ...] of [fetch_all_data], from the [data] built so far. *)
Fixpoint fetch_keys (read_csv : string -> result DataFrame) (keys : list string)
    (data : list (string * DataFrame)) : result (list (string * DataFrame)) :=
  match keys with
  | [] => mret data
  | key :: rest =>
      df ← fetch_csv read_csv key;
      fetch_keys read_csv rest (if df_empty df then data else assoc_set data key df)
  end.

Definition fetch_all_data (read_csv : string -> result DataFrame)
  : result (list (string * DataFrame)) :=
  fetch_keys read_csv (map fst CATEGORIES) [].

(** ** The sync contract, after section 4.2 of the specification *)

(** The rows of a categorized dataset, in the order of iteration. *)
Definition rows_of (data : list (string * DataFrame)) : list (string * Series) :=
  flat_map (fun cd => map (pair (fst cd)) (snd cd)) data.

(** The value a record carries under a name, as the store receives it. *)
Definition field (record : gmap string pyval) (name : string) : pyval :=
  sql_bind (dict_get record name VNone).

Definition hash_present (h : pyval) (db : database) : bool :=
  existsb (fun r => sql_eq (Interests.hash r) h) (interests db).

(** The Interest Record of a normalized record first seen at [now]. *)
Definition new_interest (now : string) (record : gmap string pyval) (id : Z)
  : Interests.row :=
  Interests.mk id (field record "hash") (field record "category")
    (field record "member") (field record "party") (field record "mnis_id")
    (field record "twfy_id") (field record "summary") (field record "value")
    (field record "payer_name") (field record "received_date")
    (field record "registered") (field record "published")
    (field record "raw_json") (VStr now) (VStr now).

(** The Change Event of type "new" written with it. *)
Definition new_change (now : string) (record : gmap string pyval) (id : Z)
  : Changes.row :=
  Changes.mk id (field record "hash") (VStr "new") (VStr now) VNone
    (field record "summary") (field record "member") (field record "category").

(** Steps 2 to 5 for one normalized record: absent, insert the record,
    append its event and count it as new; present, advance [last_seen] of
    the record with that hash and nothing else; count it in both cases. *)
Definition spec_sync_row (now : string) (s : Stats * database)
    (record : gmap string pyval) : Stats * database :=
  let '(stats, db) := s in
  let h := field record "hash" in
  if hash_present h db
  then
    (mk_stats (new stats) (total stats + 1),
     mk_database
       (map (fun r => if sql_eq (Interests.hash r) h then touch (VStr now) r else r)
            (interests db))
       (changes db))
  else
    (mk_stats (new stats + 1) (total stats + 1),
     mk_database
       (interests db ++ [new_interest now record (next_id (map Interests.id (interests db)))])
       (changes db ++ [new_change now record (next_id (map Changes.id (changes db)))])).

(** The whole run on the records of its rows, from zeroed counts. *)
Definition spec_sync (now : string) (records : list (gmap string pyval))
    (db : database) : Stats * database :=
  fold_left (spec_sync_row now) records (mk_stats 0 0, db).

(** The keys of a normalized record. *)
Definition record_fields : list string :=
  ["hash"; "category"; "member"; "party"; "mnis_id"; "twfy_id"; "summary"; "value";
   "payer_name"; "received_date"; "registered"; "published"; "raw_json"].

Definition has_fields (record : gmap string pyval) : Prop :=
  Forall (fun k => is_Some (record !! k)) record_fields.

(** ** Stores reached by the program *)

(** The UNIQUE constraint on [interests.hash]. *)
Definition hash_unique (db : database) : Prop :=
  forall i j r1 r2,
    interests db !! i = Some r1 -> interests db !! j = Some r2 ->
    sql_eq (Interests.hash r1) (Interests.hash r2) = true -> i = j.

(** Connections the program can hold: a fresh database file, the same
    file reopened by a later run, and those after a run of
    [sync_to_database], whether it returned or raised. *)
Inductive reachable `{RT : Runtime} : connection -> Prop :=
| reach_init : reachable (init_database None)
| reach_reopen c : reachable c -> reachable (init_database (Some (disk c)))
| reach_sync c data now :
    reachable c -> reachable (snd (sync_to_database data now c)).

(** The stored records a run refreshes: those whose hash is the hash of
    one of the records of the run. *)
Definition seen_in (records : list (gmap string pyval)) (r : Interests.row) : bool :=
  existsb (fun record => sql_eq (Interests.hash r) (field record "hash")) records.

Definition refresh (now : string) (records : list (gmap string pyval))
    (rows : list Interests.row) : list Interests.row :=
  map (fun r => if seen_in records r then touch (VStr now) r else r) rows.

(** The change log read against the records: hashes are text and
    pairwise distinct, and the k-th event is the "new" event of the k-th
    record, detected when the record was first seen. *)
Definition text_hash (r : Interests.row) : Prop :=
  exists h, Interests.hash r = VStr h.

Definition event_of (r : Interests.row) (e : Changes.row) : Prop :=
  Changes.interest_hash e = Interests.hash r /\
  Changes.change_type e = VStr "new" /\
  Changes.detected_at e = Interests.first_seen r.

Definition audit_ok (db : database) : Prop :=
  NoDup (map Interests.hash (interests db)) /\
  Forall text_hash (interests db) /\
  Forall2 event_of (interests db) (changes db).

(** An Interest Record and the Change Event written alongside it at
    [now]. *)
Definition written_at (now : string) (r : Interests.row) (e : Changes.row) : Prop :=
  Changes.interest_hash e = Interests.hash r /\
  Changes.detected_at e = VStr now /\
  Interests.first_seen r = VStr now /\
  Interests.last_seen r = VStr now.

(** What a run that started from [db0] has added to the store by the
    time it shows [db]. *)
Definition added_since (now : string) (db0 db : database) : Prop :=
  exists old added_records added_events,
    interests db = (old ++ added_records)%list /\
    length old = length (interests db0) /\
    changes db = (changes db0 ++ added_events)%list /\
    Forall2 (written_at now) added_records added_events.

(** The fetch of a category came back with no data: [fetch_csv] returned
    an empty frame, downloaded or made up after a failed download. *)
Definition fetched_nothing (read_csv : string -> result DataFrame) (key : string)
  : bool :=
  match fetch_csv read_csv key with
  | Ok df => df_empty df
  | Raise _ => false
  end.

(** A row together with the record it normalizes to. *)
Definition normalizes `{RT : Runtime} (cr : string * Series) (record : gmap string pyval)
  : Prop :=
  normalize_row (snd cr) (fst cr) = Ok record.

Definition normalized `{RT : Runtime} (record : gmap string pyval) : Prop :=
  exists cr, normalizes cr record.

Definition fails_with `{RT : Runtime} (e : exn) (cr : string * Series) : Prop :=
  normalize_row (snd cr) (fst cr) = Raise e.

(** ** The run *)

(** What [fetch_all_data] keeps of one entry of [CATEGORIES]: the frame
    downloaded for its file, unless the download failed or came back
    empty. *)
Definition fetched (read_csv : string -> result DataFrame) (entry : string * string)
  : option (string * DataFrame) :=
  match read_csv (MYSOCIETY_BASE +:+ "/" +:+ snd entry) with
  | Ok df => if df_empty df then None else Some (fst entry, df)
  | Raise _ => None
  end.

(** [run_sync] as far as the database goes, lines 130 to 134: the
    connection, the fetch, the sync.  The directories, the printing and
    the reports are written elsewhere and leave the database as the sync
    committed it. *)
Definition run_sync `{RT : Runtime} (read_csv : string -> result DataFrame)
    (now : string) (db_file : option database) : result Stats * connection :=
  let conn := init_database db_file in
  match fetch_all_data read_csv with
  | Ok data => sync_to_database data now conn
  | Raise e => (Raise e, conn)
  end.

(** The database file after a series of runs, each with the feed and the
    clock it met, a run that raises leaving the file as it found it. *)
Fixpoint run_all `{RT : Runtime} (runs : list ((string -> result DataFrame) * string))
    (db_file : option database) : option database :=
  match runs with
  | [] => db_file
  | (read_csv, now) :: rest =>
      run_all rest (Some (disk (snd (run_sync read_csv now db_file))))
  end.

(** ** More vocabulary for the properties *)

(** A record as [process_earnings_data] builds it from a row. *)
Definition record_from `{RT : Runtime} (category : string) (row : Series)
    (record : gmap string pyval) : Prop :=
  record !! "category" = Some (VStr category) /\
  (forall k,
      In k ["member"; "party"; "mnis_id"; "twfy_id"; "summary"; "value";
            "received_date"; "registered"; "published"] ->
      record !! k = Some (series_get row k)) /\
  record !! "payer_name" =
    Some (py_or (series_get row "payer_name") (series_get row "donor_name")) /\
  (exists raw_json,
      json_dumps row = Ok raw_json /\ record !! "raw_json" = Some (VStr raw_json)) /\
  record !! "hash" =
    Some (VStr (MD5.hexdigest
                  (String.concat "|"
                     [ py_str (series_get row "member"); category;
                       py_str (series_get row "summary");
                       py_str (series_get row "value");
                       py_str (py_or (series_get row "payer_name")
                                     (series_get row "donor_name"));
                       py_str (series_get row "received_date") ]))).

(** A stored record after a run: as it was, or with [last_seen] set to
    the timestamp of the run. *)
Definition same_or_touched (now : string) (r r' : Interests.row) : Prop :=
  r' = r \/ r' = touch (VStr now) r.

(** What a run that started from [db0] has kept of it in [db]. *)
Definition kept_since (now : string) (db0 db : database) : Prop :=
  exists old added_records added_events,
    interests db = (old ++ added_records)%list /\
    Forall2 (same_or_touched now) (interests db0) old /\
    changes db = (changes db0 ++ added_events)%list.

(** Both tables numbered 1, 2, 3, ... in the order of insertion. *)
Definition numbered (db : database) : Prop :=
  map Interests.id (interests db) = map Z.of_nat (seq 1 (length (interests db))) /\
  map Changes.id (changes db) = map Z.of_nat (seq 1 (length (changes db))).

(** The hashes of the records of a run that the store does not hold yet,
    each once. *)
Definition unseen_hashes (records : list (gmap string pyval)) (db : database)
  : list pyval :=
  remove_dups
    (filter (fun h => h ∉ map Interests.hash (interests db))
            (map (fun record => field record "hash") records)).

Definition hex_chars : list ascii := list_ascii_of_string "0123456789abcdef".

(** ** What SQLite can bind *)

(** A Python int binds when it fits the signed 64 bits of an SQLite
    INTEGER; [None], [bool], [float] and [str] always bind. *)
Definition binds (v : pyval) : bool :=
  match v with
  | VInt n => (- 2 ^ 63 <=? n) && (n <? 2 ^ 63)
  | _ => true
  end.

(** A dataset every cell of which binds. *)
Definition int64_data (data : list (string * DataFrame)) : Prop :=
  Forall (fun cr => Forall (fun cell => binds (snd cell) = true) (snd cr)) (rows_of data).

(** A record every value of which binds. *)
Definition record_binds (record : gmap string pyval) : bool :=
  forallb (fun k => binds (dict_get record k VNone)) record_fields.

(** [cursor.execute(sql, params)]: [sqlite3] binds the parameters, then
    runs the statement; a parameter that does not bind raises
    OverflowError and the statement is not run. *)
Definition execute {A} (params : list pyval) (statement : M A) : M A := fun c =>
  if forallb binds params then statement c else (Raise OverflowError, c).

(** The body of the inner loop of [sync_to_database], lines 92 to 107,
    each statement run by [execute] on its parameters. *)
Definition sync_record_checked (now : string) (record : gmap string pyval)
    (stats : Stats) : M Stats :=
  let stats := mk_stats (new stats) (total stats + 1) in
  h ← lift (dict_item record "hash");
  found ← execute [h] (select_hash h);
  match found with
  | None =>
      hash ← lift (dict_item record "hash");
      category ← lift (dict_item record "category");
      member ← lift (dict_item record "member");
      party ← lift (dict_item record "party");
      mnis_id ← lift (dict_item record "mnis_id");
      twfy_id ← lift (dict_item record "twfy_id");
      summary ← lift (dict_item record "summary");
      value ← lift (dict_item record "value");
      payer_name ← lift (dict_item record "payer_name");
      received_date ← lift (dict_item record "received_date");
      registered ← lift (dict_item record "registered");
      published ← lift (dict_item record "published");
      raw_json ← lift (dict_item record "raw_json");
      execute
        [hash; category; member; party; mnis_id; twfy_id; summary; value;
         payer_name; received_date; registered; published; raw_json;
         VStr now; VStr now]
        (insert_interest hash category member party mnis_id twfy_id summary value
           payer_name received_date registered published raw_json
           (VStr now) (VStr now));;
      hash' ← lift (dict_item record "hash");
      summary' ← lift (dict_item record "summary");
      member' ← lift (dict_item record "member");
      category' ← lift (dict_item record "category");
      execute [hash'; VStr now; summary'; member'; category']
        (insert_change hash' (VStr now) summary' member' category');;
      mret (mk_stats (new stats + 1) (total stats))
  | Some _ =>
      hash ← lift (dict_item record "hash");
      execute [VStr now; hash] (update_last_seen (VStr now) hash);;
      mret stats
  end.

Fixpoint sync_records_checked (now : string) (records : list (gmap string pyval))
    (stats : Stats) : M Stats :=
  match records with
  | [] => mret stats
  | record :: rest =>
      stats' ← sync_record_checked now record stats;
      sync_records_checked now rest stats'
  end.

Fixpoint sync_categories_checked `{RT : Runtime} (now : string)
    (data : list (string * DataFrame)) (stats : Stats) : M Stats :=
  match data with
  | [] => mret stats
  | (category, df) :: rest =>
      records ← lift (process_earnings_data df category);
      stats' ← sync_records_checked now records stats;
      sync_categories_checked now rest stats'
  end.

(** [sync_to_database(data, conn)] with the binds of [sqlite3]: the run as
    [sync_to_database] above has it, except that a statement whose
    parameters do not bind raises instead of running. *)
Definition sync_to_database_checked `{RT : Runtime} (data : list (string * DataFrame))
    (now : string) : M Stats :=
  stats ← sync_categories_checked now data (mk_stats 0 0);
  commit;;
  mret stats.

(** ** The contract of a run, row by row *)







(** ** Sample data *)

(** [m / 2 ^ k] in lowest terms. *)
Fixpoint lowest_terms (fuel : nat) (m k : Z) : Z * Z :=
  match fuel with
  | O => (m, k)
  | S fuel' =>
      if (0 <? k) && Z.even m then lowest_terms fuel' (m / 2) (k - 1) else (m, k)
  end.

Fixpoint zeros (n : nat) : string :=
  match n with
  | O => ""
  | S n' => String "0" (zeros n')
  end.

(** The decimal expansion of [m * 2 ^ e], which is finite, in full. *)
Definition decimal (m e : Z) : string :=
  if 0 <=? e then pretty (m * 2 ^ e) +:+ ".0"
  else
    let '(m', k) := lowest_terms (Z.to_nat (- e)) m (- e) in
    if k =? 0 then pretty m' +:+ ".0"
    else
      let fraction := pretty ((m' mod 2 ^ k) * 5 ^ k) in
      pretty (m' / 2 ^ k) +:+ "."
        +:+ zeros (Z.to_nat k - String.length fraction) +:+ fraction.

(** A runtime for the samples: a float is written as its decimal
    expansion in full, which is what Python prints for the floats with a
    short one between 1e-4 and 1e16, and the raw payload is left empty.
    The samples hold no float. *)
Definition sample_runtime : Runtime := {|
  float_repr := fun s m e => (if s then "-" else "") +:+ decimal (Z.pos m) e;
  json_dumps := fun _ => Ok "{}"
|}.


Definition row_a : Series :=
  [ ("member", VStr "A"); ("party", VStr "P"); ("summary", VStr "gift");
    ("value", VInt 100); ("payer_name", VStr "X");
    ("received_date", VStr "2024-01-01") ].

(** [row_a] as another release of the feed might carry it: the party has
    changed, the identity fields have not. *)
Definition row_a' : Series :=
  [ ("member", VStr "A"); ("party", VStr "Q"); ("summary", VStr "gift");
    ("value", VInt 100); ("payer_name", VStr "X");
    ("received_date", VStr "2024-01-01"); ("registered", VStr "2024-01-15") ].

Definition row_b : Series :=
  [ ("member", VStr "B"); ("party", VStr "P"); ("summary", VStr "fee");
    ("value", VInt 250); ("payer_name", VStr "Y");
    ("received_date", VStr "2024-02-02") ].

(** A row without [value], [payer_name] and [donor_name]. *)
Definition sparse_row : Series :=
  [ ("member", VStr "A"); ("summary", VStr "gift");
    ("received_date", VStr "2024-01-01") ].

(** A row whose [payer_name] is there and is the number zero. *)
Definition zero_payer_row : Series :=
  [ ("member", VStr "A"); ("payer_name", VInt 0); ("donor_name", VStr "D") ].

(** What a row normalizes to under [sample_runtime]. *)
Definition sample_record (row : Series) (category : string) : gmap string pyval :=
  let d := record_display row category "{}" in
  <["hash" := VStr (@compute_hash sample_runtime d)]> d.

Definition sample_data : list (string * DataFrame) :=
  [ ("donations", [row_a; row_b]); ("gifts_uk", [row_a']) ].

(** A dataset in which one hash occurs twice. *)
Definition repeated_data : list (string * DataFrame) :=
  [ ("donations", [row_a; row_b; row_a']) ].

Definition repeated_records : list (gmap string pyval) :=
  [ sample_record row_a "donations"; sample_record row_b "donations";
    sample_record row_a' "donations" ].

(** A feed in which only donations has rows: gifts_uk has a header and
    nothing under it, and every other download fails. *)
Definition sample_read_csv (url : string) : result DataFrame :=
  if decide (url = MYSOCIETY_BASE +:+ "/category_2.csv") then Ok [row_a; row_b]
  else if decide (url = MYSOCIETY_BASE +:+ "/category_3.csv") then Ok []
  else Raise ValueError.

(** [row_a] with its value read as text. *)
Definition row_a_text : Series :=
  [ ("member", VStr "A"); ("party", VStr "P"); ("summary", VStr "gift");
    ("value", VStr "100"); ("payer_name", VStr "X");
    ("received_date", VStr "2024-01-01") ].

(** Two rows that differ in summary and value by the place of a bar. *)
Definition row_bar_left : Series :=
  [ ("member", VStr "A"); ("summary", VStr "gift|cash"); ("value", VStr "100");
    ("payer_name", VStr "X"); ("received_date", VStr "2024-01-01") ].

Definition row_bar_right : Series :=
  [ ("member", VStr "A"); ("summary", VStr "gift"); ("value", VStr "cash|100");
    ("payer_name", VStr "X"); ("received_date", VStr "2024-01-01") ].

(** A database this program did not build: ids with gaps, a row without
    hash, no change log. *)
Definition legacy_database : database :=
  mk_database
    [ Interests.mk 7 (VStr "ed3511490ecd5a316bfdb349df3c90a7") (VStr "donations")
        (VStr "A") VNone VNone VNone (VStr "gift") (VInt 100) (VStr "X")
        (VStr "2024-01-01") VNone VNone VNone (VStr "2023-12-31") (VStr "2023-12-31");
      Interests.mk 9 VNone (VStr "visits") (VStr "C") VNone VNone VNone VNone VNone
        VNone VNone VNone VNone VNone (VStr "2023-12-31") (VStr "2023-12-31") ]
    [].

(** A row that normalizes and holds an int one past the signed 64 bits. *)
Definition big_row : Series :=
  [ ("member", VStr "A"); ("mnis_id", VInt (2 ^ 63)); ("summary", VStr "gift") ].

(** A feed that is down. *)
Definition outage_read_csv (url : string) : result DataFrame := Raise ValueError.

(** The clock readings of two runs. *)
Definition now1 : string := "2024-03-01T09:00:00.000001".
Definition now2 : string := "2024-03-02T09:00:00.000002".

(** ** Properties *)

(** The RFC 1321 test suite. *)
Example md5_empty : MD5.hexdigest "" = "d41d8cd98f00b204e9800998ecf8427e".
Proof. vm_compute. reflexivity. Qed.

Example md5_abc : MD5.hexdigest "abc" = "900150983cd24fb0d6963f7d28e17f72".
Proof. vm_compute. reflexivity. Qed.

Example md5_message_digest :
  MD5.hexdigest "message digest" = "f96b697d7cb7938d525a2f31aaf161d0".
Proof. vm_compute. reflexivity. Qed.

(** 100.0, 0.5, 2.75 and 0.0625 as binary64 and as the sample runtime
    writes them. *)
Example sample_float_repr :
  map (fun '(m, e) => @float_repr sample_runtime false m e)
      [ (7036874417766400%positive, -46); (4503599627370496%positive, -53);
        (6192449487634432%positive, -51); (4503599627370496%positive, -56) ]
  = ["100.0"; "0.5"; "2.75"; "0.0625"].
Proof. vm_compute. reflexivity. Qed.

Example md5_two_blocks :
  MD5.hexdigest
    "12345678901234567890123456789012345678901234567890123456789012345678901234567890"
  = "57edf4a22be3c955ac49da2e2107b67a".
Proof. vm_compute. reflexivity. Qed.


Section Properties.
Context `{RT : Runtime}.

Lemma find_existsb {A} (p : A -> bool) (l : list A) :
  find p l = None <-> existsb p l = false.
Proof.
  induction l as [|a l IH]; simpl; [tauto|].
  destruct (p a); simpl; [split; discriminate | exact IH].
Qed.

Lemma sql_eq_text cell h : sql_eq cell (VStr h) = bool_decide (cell = VStr h).
Proof.
  destruct cell; reflexivity.
Qed.

Lemma sync_record_spec now record stats c :
  has_fields record ->
  sync_record now record stats c =
    (Ok (fst (spec_sync_row now (stats, view c) record)),
     mk_connection (disk c) (snd (spec_sync_row now (stats, view c) record))).
Proof.
  intros Hf. unfold has_fields, record_fields in Hf.
  repeat match goal with
         | H : Forall _ (_ :: _) |- _ =>
             let x := fresh "v" in let E := fresh "E" in
             apply Forall_cons_1 in H; destruct H as [[x E] H]
         end.
  unfold sync_record, spec_sync_row, hash_present, field, dict_get.
  unfold mbind, M_bind, lift, dict_item, select_hash. rewrite E. simpl.
  destruct (find _ _) eqn:Hfind; simpl.
  - assert (existsb (fun r => sql_eq (Interests.hash r) (sql_bind v)) (interests (view c)) = true) as ->.
    { destruct (existsb _ _) eqn:Hex; [done|].
      apply find_existsb in Hex. congruence. }
    reflexivity.
  - apply find_existsb in Hfind. rewrite Hfind.
    rewrite E0, E1, E2, E3, E4, E5, E6, E7, E8, E9, E10, E11. simpl.
    unfold insert_interest. rewrite Hfind. simpl.
    unfold new_interest, new_change, field, dict_get.
    rewrite E, E0, E1, E2, E3, E4, E5, E6, E7, E8, E9, E10, E11. simpl.
    destruct c as [d [rows evs]]. reflexivity.
Qed.

Lemma record_display_lookup row category raw_json :
  let d := record_display row category raw_json in
  d !! "hash" = None /\
  d !! "category" = Some (VStr category) /\
  d !! "member" = Some (series_get row "member") /\
  d !! "party" = Some (series_get row "party") /\
  d !! "mnis_id" = Some (series_get row "mnis_id") /\
  d !! "twfy_id" = Some (series_get row "twfy_id") /\
  d !! "summary" = Some (series_get row "summary") /\
  d !! "value" = Some (series_get row "value") /\
  d !! "payer_name" =
    Some (py_or (series_get row "payer_name") (series_get row "donor_name")) /\
  d !! "received_date" = Some (series_get row "received_date") /\
  d !! "registered" = Some (series_get row "registered") /\
  d !! "published" = Some (series_get row "published") /\
  d !! "raw_json" = Some (VStr raw_json).
Proof.
  unfold record_display.
  generalize (py_or (series_get row "payer_name") (series_get row "donor_name")).
  generalize (series_get row "member") (series_get row "party")
    (series_get row "mnis_id") (series_get row "twfy_id")
    (series_get row "summary") (series_get row "value")
    (series_get row "received_date") (series_get row "registered")
    (series_get row "published").
  intros. repeat split; vm_compute; reflexivity.
Qed.

Lemma normalize_row_Ok row category record :
  normalize_row row category = Ok record <->
  exists raw_json,
    json_dumps row = Ok raw_json /\
    record = <["hash" := VStr (compute_hash (record_display row category raw_json))]>
               (record_display row category raw_json).
Proof.
  unfold normalize_row, mbind, result_bind, mret, result_ret.
  destruct (json_dumps row) as [raw|e]; split.
  - intros [= <-]. eauto.
  - intros (raw' & [= <-] & ->). reflexivity.
  - discriminate.
  - intros (raw' & [=] & _).
Qed.

Lemma normalize_row_Raise row category e :
  normalize_row row category = Raise e <-> json_dumps row = Raise e.
Proof.
  unfold normalize_row, mbind, result_bind, mret, result_ret.
  destruct (json_dumps row); split; congruence.
Qed.

Lemma normalized_has_fields record : normalized record -> has_fields record.
Proof.
  intros [[category row] Hn]. unfold normalizes in Hn. cbn [fst snd] in Hn.
  apply normalize_row_Ok in Hn as (raw & _ & ->).
  pose proof (record_display_lookup row category raw) as L. cbv zeta in L.
  destruct L as (_ & L1 & L2 & L3 & L4 & L5 & L6 & L7 & L8 & L9 & L10 & L11 & L12).
  unfold has_fields, record_fields.
  repeat apply Forall_cons_2; try apply Forall_nil_2.
  - rewrite lookup_insert_eq. eauto.
  - rewrite lookup_insert_ne by done. rewrite L1. eauto.
  - rewrite lookup_insert_ne by done. rewrite L2. eauto.
  - rewrite lookup_insert_ne by done. rewrite L3. eauto.
  - rewrite lookup_insert_ne by done. rewrite L4. eauto.
  - rewrite lookup_insert_ne by done. rewrite L5. eauto.
  - rewrite lookup_insert_ne by done. rewrite L6. eauto.
  - rewrite lookup_insert_ne by done. rewrite L7. eauto.
  - rewrite lookup_insert_ne by done. rewrite L8. eauto.
  - rewrite lookup_insert_ne by done. rewrite L9. eauto.
  - rewrite lookup_insert_ne by done. rewrite L10. eauto.
  - rewrite lookup_insert_ne by done. rewrite L11. eauto.
  - rewrite lookup_insert_ne by done. rewrite L12. eauto.
Qed.

Lemma normalized_hash record :
  normalized record -> record !! "hash" = Some (VStr (compute_hash (delete "hash" record))).
Proof.
  intros [[category row] Hn]. unfold normalizes in Hn. cbn [fst snd] in Hn.
  apply normalize_row_Ok in Hn as (raw & _ & ->).
  rewrite lookup_insert_eq, delete_insert_eq. 
  rewrite delete_id; [reflexivity|].
  apply record_display_lookup.
Qed.

Lemma process_earnings_data_Ok df category records :
  process_earnings_data df category = Ok records <->
  Forall2 (fun row record => normalize_row row category = Ok record) df records.
Proof.
  revert records. induction df as [|row df IH]; intros records; simpl.
  - split; [intros [= <-]; constructor | intros Hf; inversion Hf; reflexivity].
  - unfold mbind, result_bind, mret, result_ret in *.
    destruct (normalize_row row category) as [r|e] eqn:Hr.
    + destruct (process_earnings_data df category) as [rs|e] eqn:Hrs; split.
      * intros [= <-]. constructor; [assumption|]. by apply IH.
      * intros Hf. inversion Hf as [|? r' ? rs' Hr' Hrs']; subst.
        apply IH in Hrs'. congruence.
      * discriminate.
      * intros Hf. inversion Hf as [|? r' ? rs' Hr' Hrs']; subst.
        apply IH in Hrs'. discriminate.
    + split; [discriminate|].
      intros Hf. inversion Hf; subst. congruence.
Qed.

Lemma process_earnings_data_Raise df category e :
  process_earnings_data df category = Raise e ->
  Exists (fun row => normalize_row row category = Raise e) df.
Proof.
  induction df as [|row df IH]; simpl; [discriminate|].
  unfold mbind, result_bind, mret, result_ret in *.
  destruct (normalize_row row category) as [r|e'] eqn:Hr.
  - destruct (process_earnings_data df category) as [rs|e'']; [discriminate|].
    intros [= ->]. apply Exists_cons_tl. by apply IH.
  - intros [= ->]. by apply Exists_cons_hd.
Qed.

Lemma sync_records_spec now records stats c :
  Forall has_fields records ->
  sync_records now records stats c =
    (Ok (fst (fold_left (spec_sync_row now) records (stats, view c))),
     mk_connection (disk c)
       (snd (fold_left (spec_sync_row now) records (stats, view c)))).
Proof.
  revert stats c. induction records as [|r records IH]; intros stats c Hf;
    cbn [sync_records fold_left].
  - destruct c. reflexivity.
  - apply Forall_cons_1 in Hf as [Hr Hf].
    unfold mbind, M_bind. rewrite (sync_record_spec now r stats c Hr).
    destruct (spec_sync_row now (stats, view c) r) as [stats' db'].
    cbn [fst snd]. rewrite IH by assumption. reflexivity.
Qed.

Lemma Forall2_normalizes_rows category df records :
  Forall2 (fun row record => normalize_row row category = Ok record) df records ->
  Forall2 normalizes (map (pair category) df) records /\ Forall normalized records.
Proof.
  induction 1 as [|row r df rs Hr _ [IH1 IH2]]; simpl.
  - split; constructor.
  - split; constructor; try assumption.
    exists (category, row). exact Hr.
Qed.

(** A run of the loop over the categories: the records of the rows it
    got through, the store they leave, and how it ended. *)
Lemma sync_categories_run now data stats c :
  exists records,
    Forall normalized records /\
    snd (sync_categories now data stats c) =
      mk_connection (disk c)
        (snd (fold_left (spec_sync_row now) records (stats, view c))) /\
    match fst (sync_categories now data stats c) with
    | Ok stats' =>
        Forall2 normalizes (rows_of data) records /\
        stats' = fst (fold_left (spec_sync_row now) records (stats, view c))
    | Raise e => Exists (fails_with e) (rows_of data)
    end.
Proof.
  revert stats c. induction data as [|[category df] data IH]; intros stats c.
  - exists []. simpl. destruct c. repeat split; constructor.
  - cbn [sync_categories]. unfold mbind, M_bind, lift.
    destruct (process_earnings_data df category) as [rs|e] eqn:Hp.
    + apply process_earnings_data_Ok, Forall2_normalizes_rows in Hp as [Hrows Hn].
      rewrite sync_records_spec
        by (eapply Forall_impl; [exact Hn | exact normalized_has_fields]).
      set (s1 := fold_left (spec_sync_row now) rs (stats, view c)).
      destruct (IH (fst s1) (mk_connection (disk c) (snd s1)))
        as (rs' & Hn' & Hc & Hres).
      exists (rs ++ rs')%list. split; [by apply Forall_app|].
      rewrite fold_left_app. fold s1.
      cbn [disk view] in Hc, Hres. rewrite <- surjective_pairing in Hc, Hres.
      split; [exact Hc|].
      destruct (fst (sync_categories now data s1.1 _)) as [stats'|e].
      * destruct Hres as [Hf ->]. split; [|reflexivity].
        unfold rows_of. cbn [flat_map fst snd]. by apply Forall2_app.
      * unfold rows_of. cbn [flat_map fst snd]. apply Exists_app. by right.
    + exists []. cbn [fold_left fst snd]. destruct c. repeat split; [constructor|].
      apply process_earnings_data_Raise in Hp.
      unfold rows_of. cbn [flat_map fst snd]. apply Exists_app. left.
      apply Exists_exists in Hp as (row & Hin & Hrow).
      apply Exists_exists. exists (category, row). split; [|exact Hrow].
      apply list_elem_of_In, in_map, list_elem_of_In, Hin.
Qed.

Lemma sync_to_database_run data now c :
  exists records,
    Forall normalized records /\
    match fst (sync_to_database data now c) with
    | Ok stats =>
        Forall2 normalizes (rows_of data) records /\
        stats = fst (spec_sync now records (view c)) /\
        snd (sync_to_database data now c) =
          mk_connection (snd (spec_sync now records (view c)))
                        (snd (spec_sync now records (view c)))
    | Raise e =>
        Exists (fails_with e) (rows_of data) /\
        snd (sync_to_database data now c) =
          mk_connection (disk c) (snd (spec_sync now records (view c)))
    end.
Proof.
  destruct (sync_categories_run now data (mk_stats 0 0) c) as (rs & Hn & Hc & Hres).
  exists rs. split; [exact Hn|].
  unfold sync_to_database, mbind, M_bind, spec_sync.
  destruct (sync_categories now data (mk_stats 0 0) c) as [[stats|e] c'];
    cbn [fst snd] in *.
  - destruct Hres as [Hf ->]. subst c'. unfold commit. cbn. auto.
  - subst c'. auto.
Qed.

Lemma normalizes_fun rows records1 records2 :
  Forall2 normalizes rows records1 -> Forall2 normalizes rows records2 ->
  records1 = records2.
Proof.
  intros H1. revert records2.
  induction H1 as [|cr r rows rs Hr _ IH]; intros records2 H2; inversion H2; subst.
  - reflexivity.
  - unfold normalizes in *. f_equal; [congruence | by apply IH].
Qed.

Lemma normalizes_not_fails rows records e :
  Forall2 normalizes rows records -> Exists (fails_with e) rows -> False.
Proof.
  induction 1 as [|cr r rows rs Hr _ IH]; intros Hex; inversion Hex; subst.
  - unfold normalizes, fails_with in *. congruence.
  - by apply IH.
Qed.

(** The counts of the contract: every record is counted once, and [new]
    counts the Interest Records, and as many Change Events, added. *)
Lemma spec_sync_row_counts now stats db record :
  let s' := spec_sync_row now (stats, db) record in
  total (fst s') = total stats + 1 /\
  Z.of_nat (length (interests (snd s'))) =
    Z.of_nat (length (interests db)) + (new (fst s') - new stats) /\
  Z.of_nat (length (changes (snd s'))) =
    Z.of_nat (length (changes db)) + (new (fst s') - new stats).
Proof.
  unfold spec_sync_row. destruct (hash_present _ _); cbn [fst snd total new interests changes].
  - rewrite length_map. lia.
  - rewrite !length_app. simpl. lia.
Qed.

Lemma fold_spec_sync_row_counts now records stats db :
  let s' := fold_left (spec_sync_row now) records (stats, db) in
  total (fst s') = total stats + Z.of_nat (length records) /\
  Z.of_nat (length (interests (snd s'))) =
    Z.of_nat (length (interests db)) + (new (fst s') - new stats) /\
  Z.of_nat (length (changes (snd s'))) =
    Z.of_nat (length (changes db)) + (new (fst s') - new stats).
Proof.
  revert stats db. induction records as [|r records IH]; intros stats db;
    cbn [fold_left].
  - cbn [fst snd length]. lia.
  - pose proof (spec_sync_row_counts now stats db r) as Hr. cbv zeta in Hr.
    destruct (spec_sync_row now (stats, db) r) as [stats1 db1].
    cbn [fst snd] in Hr. specialize (IH stats1 db1). cbv zeta in *.
    cbn [length]. lia.
Qed.

Lemma sync_to_database_returns data now c records :
  Forall2 normalizes (rows_of data) records ->
  sync_to_database data now c =
    (Ok (fst (spec_sync now records (view c))),
     mk_connection (snd (spec_sync now records (view c)))
                   (snd (spec_sync now records (view c)))).
Proof.
  intros Hrows.
  destruct (sync_to_database_run data now c) as (rs & _ & Hrun).
  destruct (sync_to_database data now c) as [[stats|e] c'] eqn:Hs; cbn [fst snd] in Hrun.
  - destruct Hrun as (Hrs & -> & ->).
    by rewrite (normalizes_fun _ _ _ Hrs Hrows).
  - destruct Hrun as [Hex _]. destruct (normalizes_not_fails _ _ _ Hrows Hex).
Qed.

(** *** The binds *)

Lemma sync_record_checked_cases now record stats c :
  has_fields record ->
  sync_record_checked now record stats c = sync_record now record stats c \/
  (sync_record_checked now record stats c = (Raise OverflowError, c) /\
   record_binds record = false).
Proof.
  intros Hf. unfold has_fields, record_fields in Hf.
  repeat match goal with
         | H : Forall _ (_ :: _) |- _ =>
             let x := fresh "v" in let E := fresh "E" in
             apply Forall_cons_1 in H; destruct H as [[x E] H]
         end.
  assert (record_binds record = forallb binds [v; v0; v1; v2; v3; v4; v5; v6; v7; v8; v9; v10; v11])
    as Hrb.
  { unfold record_binds, record_fields, dict_get. cbn [forallb].
    rewrite E, E0, E1, E2, E3, E4, E5, E6, E7, E8, E9, E10, E11. reflexivity. }
  unfold sync_record_checked, sync_record.
  unfold mbind, M_bind, lift, dict_item, select_hash, execute.
  rewrite E. change (forallb binds [v]) with (binds v && true)%bool.
  rewrite andb_true_r.
  destruct (binds v) eqn:Hv.
  - destruct (find _ _) eqn:Hfind; cbn [fmap option_fmap option_map].
    + left. cbn [forallb binds]. rewrite Hv. reflexivity.
    + rewrite E0, E1, E2, E3, E4, E5, E6, E7, E8, E9, E10, E11.
      change [v; v0; v1; v2; v3; v4; v5; v6; v7; v8; v9; v10; v11; VStr now; VStr now]
        with ([v; v0; v1; v2; v3; v4; v5; v6; v7; v8; v9; v10; v11]
                ++ [VStr now; VStr now])%list.
      rewrite forallb_app, <- Hrb. cbn [forallb binds]. rewrite andb_true_r.
      destruct (record_binds record) eqn:Hb.
      * left. symmetry in Hrb. cbn [forallb] in Hrb.
        repeat match type of Hrb with
               | (_ && _)%bool = true => apply andb_prop in Hrb as [? Hrb]
               end.
        destruct (insert_interest _ _ _ _ _ _ _ _ _ _ _ _ _ _ _ c) as [[[]|e] c1];
          [|reflexivity].
        cbn [forallb binds].
        repeat match goal with
               | H : binds _ = true |- _ => try rewrite H; clear H
               end.
        reflexivity.
      * right. split; reflexivity.
  - right. split; [reflexivity|]. rewrite Hrb. cbn [forallb]. by rewrite Hv.
Qed.

Lemma series_get_binds row key :
  Forall (fun cell : string * pyval => binds (snd cell) = true) row ->
  binds (series_get row key) = true.
Proof.
  induction 1 as [|[k v] row Hv _ IH]; cbn [series_get]; [reflexivity|].
  destruct (decide (k = key)); [exact Hv | exact IH].
Qed.

Lemma normalized_binds row category record :
  normalize_row row category = Ok record ->
  Forall (fun cell : string * pyval => binds (snd cell) = true) row ->
  record_binds record = true.
Proof.
  intros Hn Hrow. apply normalize_row_Ok in Hn as (raw & _ & ->).
  pose proof (record_display_lookup row category raw) as L. cbv zeta in L.
  destruct L as (_ & L1 & L2 & L3 & L4 & L5 & L6 & L7 & L8 & L9 & L10 & L11 & L12).
  unfold record_binds, record_fields, dict_get. cbn [forallb].
  rewrite lookup_insert_eq, !lookup_insert_ne by done.
  rewrite L1, L2, L3, L4, L5, L6, L7, L8, L9, L10, L11, L12. cbn [default]. unfold id.
  unfold py_or. destruct (py_bool (series_get row "payer_name"));
    rewrite !series_get_binds by exact Hrow; reflexivity.
Qed.

Lemma sync_records_checked_binds now records stats c :
  Forall has_fields records ->
  Forall (fun record => record_binds record = true) records ->
  sync_records_checked now records stats c = sync_records now records stats c.
Proof.
  revert stats c. induction records as [|r records IH]; intros stats c Hf Hb;
    [reflexivity|].
  apply Forall_cons_1 in Hf as [Hr Hf]. apply Forall_cons_1 in Hb as [Hrb Hb].
  cbn [sync_records_checked sync_records]. unfold mbind, M_bind.
  destruct (sync_record_checked_cases now r stats c Hr) as [-> | [_ Hno]];
    [|congruence].
  destruct (sync_record now r stats c) as [[stats'|e] c']; [by apply IH | reflexivity].
Qed.

Lemma sync_records_checked_raises now records stats c e :
  Forall has_fields records ->
  fst (sync_records_checked now records stats c) = Raise e ->
  e = OverflowError /\ Exists (fun record => record_binds record = false) records.
Proof.
  revert stats c. induction records as [|r records IH]; intros stats c Hf;
    [discriminate|].
  apply Forall_cons_1 in Hf as [Hr Hf].
  cbn [sync_records_checked]. unfold mbind, M_bind.
  destruct (sync_record_checked_cases now r stats c Hr) as [-> | [-> Hno]].
  - rewrite (sync_record_spec now r stats c Hr).
    intros Hraise. destruct (IH _ _ Hf Hraise) as [-> Hex].
    split; [reflexivity | by apply Exists_cons_tl].
  - cbn [fst]. intros [= <-]. split; [reflexivity | by apply Exists_cons_hd].
Qed.

Lemma int64_data_cons category df data :
  int64_data ((category, df) :: data) <->
  Forall (Forall (fun cell : string * pyval => binds (snd cell) = true)) df /\
  int64_data data.
Proof.
  unfold int64_data, rows_of. cbn [flat_map fst snd].
  rewrite Forall_app, Forall_map. reflexivity.
Qed.

Lemma process_earnings_data_binds df category records :
  process_earnings_data df category = Ok records ->
  Forall (Forall (fun cell : string * pyval => binds (snd cell) = true)) df ->
  Forall (fun record => record_binds record = true) records.
Proof.
  intros Hp. apply process_earnings_data_Ok in Hp.
  induction Hp as [|row r df rs Hr _ IH]; intros Hdf; [constructor|].
  apply Forall_cons_1 in Hdf as [Hrow Hdf].
  constructor; [by eapply normalized_binds | by apply IH].
Qed.

Lemma process_earnings_data_has_fields df category records :
  process_earnings_data df category = Ok records -> Forall has_fields records.
Proof.
  intros Hp. apply process_earnings_data_Ok, Forall2_normalizes_rows in Hp as [_ Hn].
  eapply Forall_impl; [exact Hn | exact normalized_has_fields].
Qed.

Lemma sync_categories_checked_int64 now data stats c :
  int64_data data ->
  sync_categories_checked now data stats c = sync_categories now data stats c.
Proof.
  revert stats c. induction data as [|[category df] data IH]; intros stats c Hd;
    [reflexivity|].
  apply int64_data_cons in Hd as [Hdf Hd].
  cbn [sync_categories_checked sync_categories]. unfold mbind, M_bind, lift.
  destruct (process_earnings_data df category) as [rs|e] eqn:Hp; [|reflexivity].
  rewrite sync_records_checked_binds;
    [|by eapply process_earnings_data_has_fields
     |by eapply process_earnings_data_binds].
  destruct (sync_records now rs stats c) as [[stats'|e] c']; [by apply IH | reflexivity].
Qed.

(** On a dataset whose cells all bind, the binds change nothing. *)
Lemma sync_to_database_checked_int64 data now c :
  int64_data data ->
  sync_to_database_checked data now c = sync_to_database data now c.
Proof.
  intros Hd. unfold sync_to_database_checked, sync_to_database, mbind, M_bind.
  by rewrite sync_categories_checked_int64.
Qed.

Lemma sync_categories_checked_raises now data stats c e :
  fst (sync_categories_checked now data stats c) = Raise e ->
  Exists (fails_with e) (rows_of data) \/ (e = OverflowError /\ ~ int64_data data).
Proof.
  revert stats c. induction data as [|[category df] data IH]; intros stats c;
    [discriminate|].
  cbn [sync_categories_checked]. unfold mbind, M_bind, lift.
  destruct (process_earnings_data df category) as [rs|e'] eqn:Hp.
  - destruct (sync_records_checked now rs stats c) as [[stats'|e'] c'] eqn:Hrs.
    + intros Hraise. destruct (IH _ _ Hraise) as [Hex | [-> Hno]].
      * left. unfold rows_of. cbn [flat_map fst snd]. apply Exists_app. by right.
      * right. split; [reflexivity|]. rewrite int64_data_cons. tauto.
    + cbn [fst]. intros [= ->]. right.
      destruct (sync_records_checked_raises now rs stats c e) as [-> Hex].
      { by eapply process_earnings_data_has_fields. }
      { by rewrite Hrs. }
      split; [reflexivity|]. rewrite int64_data_cons. intros [Hdf _].
      pose proof (process_earnings_data_binds _ _ _ Hp Hdf) as Hb.
      apply Exists_exists in Hex as (r & Hin & Hr).
      rewrite (proj1 (Forall_forall _ _) Hb r Hin) in Hr. discriminate Hr.
  - cbn [fst]. intros [= ->]. left.
    apply process_earnings_data_Raise in Hp.
    unfold rows_of. cbn [flat_map fst snd]. apply Exists_app. left.
    apply Exists_exists in Hp as (row & Hin & Hrow).
    apply Exists_exists. exists (category, row). split; [|exact Hrow].
    apply list_elem_of_In, in_map, list_elem_of_In, Hin.
Qed.





Lemma normalized_field_hash record :
  normalized record -> exists h, field record "hash" = VStr h.
Proof.
  intros Hn. apply normalized_hash in Hn. unfold field, dict_get.
  rewrite Hn. simpl. eauto.
Qed.

Lemma hash_present_step now stats db record h :
  hash_present h db = true ->
  hash_present h (snd (spec_sync_row now (stats, db) record)) = true.
Proof.
  unfold spec_sync_row, hash_present. intros Hp.
  destruct (existsb (fun r => sql_eq (Interests.hash r) (field record "hash"))
              (interests db)); cbn [snd interests].
  - apply existsb_exists in Hp as (r & Hin & Hr). apply existsb_exists.
    exists (if sql_eq (Interests.hash r) (field record "hash")
            then touch (VStr now) r else r).
    split.
    + apply in_map_iff. exists r. auto.
    + destruct (sql_eq (Interests.hash r) (field record "hash")); exact Hr.
  - rewrite existsb_app, Hp. reflexivity.
Qed.

Lemma hash_present_own now stats db record h :
  field record "hash" = VStr h ->
  hash_present (field record "hash") (snd (spec_sync_row now (stats, db) record)) = true.
Proof.
  intros Hh. destruct (hash_present (field record "hash") db) eqn:Hp.
  - by apply hash_present_step.
  - unfold spec_sync_row. rewrite Hp. unfold hash_present. cbn [snd interests].
    rewrite existsb_app. apply orb_true_iff. right.
    cbn [existsb new_interest Interests.hash]. rewrite Hh. unfold sql_eq.
    rewrite bool_decide_eq_true_2; reflexivity.
Qed.

Lemma fold_spec_sync_row_present now records stats db :
  Forall normalized records ->
  Forall (fun record =>
            hash_present (field record "hash")
              (snd (fold_left (spec_sync_row now) records (stats, db))) = true)
         records.
Proof.
  induction records as [|r records IH] using rev_ind; intros Hn; [constructor|].
  apply Forall_app in Hn as [Hn Hr]. apply Forall_cons_1 in Hr as [Hr _].
  rewrite fold_left_app. cbn [fold_left].
  destruct (fold_left (spec_sync_row now) records (stats, db)) as [stats1 db1] eqn:Hf.
  apply Forall_app. split.
  - specialize (IH Hn). cbn [snd] in IH.
    eapply Forall_impl; [exact IH|]. intros x Hx. by apply hash_present_step.
  - constructor; [|constructor].
    destruct (normalized_field_hash r Hr) as [h Hh]. by eapply hash_present_own.
Qed.

Lemma hash_present_touched h now h' db :
  hash_present h
    (mk_database
       (map (fun r => if sql_eq (Interests.hash r) h' then touch (VStr now) r else r)
            (interests db))
       (changes db))
  = hash_present h db.
Proof.
  unfold hash_present. cbn [interests].
  induction (interests db) as [|r rows IH]; [reflexivity|].
  cbn [map existsb]. rewrite IH. f_equal.
  destruct (sql_eq (Interests.hash r) h'); reflexivity.
Qed.

(** A run all of whose records are already stored only refreshes. *)
Lemma fold_spec_sync_row_refresh now records stats db :
  Forall (fun record => hash_present (field record "hash") db = true) records ->
  fold_left (spec_sync_row now) records (stats, db) =
    (mk_stats (new stats) (total stats + Z.of_nat (length records)),
     mk_database (refresh now records (interests db)) (changes db)).
Proof.
  revert stats db. induction records as [|r records IH]; intros stats db Hp.
  - cbn [fold_left length]. unfold refresh. cbn [seen_in existsb].
    rewrite map_id, Z.add_0_r. destruct stats, db. reflexivity.
  - apply Forall_cons_1 in Hp as [Hr Hp]. cbn [fold_left].
    unfold spec_sync_row at 2. rewrite Hr.
    rewrite IH.
    + cbn [new total interests changes]. f_equal.
      * f_equal. cbn [length]. lia.
      * f_equal. unfold refresh. rewrite map_map. apply map_ext. intros x.
        unfold seen_in. cbn [existsb].
        destruct (sql_eq (Interests.hash x) (field r "hash")); cbn [orb];
          [|reflexivity].
        cbn [touch Interests.hash].
        destruct (existsb _ records); reflexivity.
    + eapply Forall_impl; [exact Hp|]. intros x Hx. cbn beta.
      rewrite hash_present_touched. exact Hx.
Qed.

(** C2: a second run on the same input data, against the store the
    first run left, returns [new = 0] and the same [total]; the number of
    stored Interest Records is unchanged, the Change Events are
    unchanged, and the Interest Records differ from before only in the
    [last_seen] of those whose hash occurs in the input, which is the
    timestamp of the second run. *)
Theorem sync_to_database_twice data now1 now2 c stats1 c1 :
  sync_to_database data now1 c = (Ok stats1, c1) ->
  exists stats2 c2 records,
    sync_to_database data now2 c1 = (Ok stats2, c2) /\
    new stats2 = 0 /\
    total stats2 = total stats1 /\
    length (interests (view c2)) = length (interests (view c1)) /\
    changes (view c2) = changes (view c1) /\
    Forall2 normalizes (rows_of data) records /\
    interests (view c2) = refresh now2 records (interests (view c1)) /\
    disk c2 = view c2.
Proof.
  intros Hrun1.
  destruct (sync_to_database_run data now1 c) as (rs & Hn & Hrun).
  rewrite Hrun1 in Hrun. cbn [fst snd] in Hrun. destruct Hrun as (Hrs & Hstats & ->).
  pose proof (sync_to_database_returns data now2
                (mk_connection (snd (spec_sync now1 rs (view c)))
                               (snd (spec_sync now1 rs (view c)))) rs Hrs)
    as Hrun2.
  cbn [view] in *.
  pose proof (fold_spec_sync_row_present now1 rs (mk_stats 0 0) (view c) Hn) as Hp.
  fold (spec_sync now1 rs (view c)) in Hp.
  pose proof (fold_spec_sync_row_refresh now2 rs (mk_stats 0 0) _ Hp) as Hr.
  fold (spec_sync now2 rs (snd (spec_sync now1 rs (view c)))) in Hr.
  rewrite Hr in Hrun2. cbn [fst snd new total] in Hrun2.
  eexists _, _, rs. split; [exact Hrun2|].
  cbn [new total view disk interests changes].
  repeat split; try assumption.
  - subst stats1.
    pose proof (fold_spec_sync_row_counts now1 rs (mk_stats 0 0) (view c)) as Hc.
    cbv zeta in Hc. fold (spec_sync now1 rs (view c)) in Hc. cbn [total] in Hc. lia.
  - unfold refresh. by rewrite length_map.
Qed.

(** *** Invariants of the store *)

Lemma fold_spec_sync_row_invariant (P : database -> Prop) now records stats db :
  (forall stats db record,
      normalized record -> P db -> P (snd (spec_sync_row now (stats, db) record))) ->
  Forall normalized records -> P db ->
  P (snd (fold_left (spec_sync_row now) records (stats, db))).
Proof.
  intros Hstep. revert stats db.
  induction records as [|r records IH]; intros stats db Hn Hdb; [exact Hdb|].
  apply Forall_cons_1 in Hn as [Hr Hn]. cbn [fold_left].
  specialize (Hstep stats db r Hr Hdb).
  destruct (spec_sync_row now (stats, db) r) as [stats1 db1]. by apply IH.
Qed.

Lemma sync_to_database_conn data now c :
  exists records,
    Forall normalized records /\
    view (snd (sync_to_database data now c)) = snd (spec_sync now records (view c)) /\
    (disk (snd (sync_to_database data now c)) = disk c \/
     disk (snd (sync_to_database data now c)) = snd (spec_sync now records (view c))).
Proof.
  destruct (sync_to_database_run data now c) as (rs & Hn & Hrun).
  exists rs. split; [exact Hn|].
  destruct (fst (sync_to_database data now c)).
  - destruct Hrun as (_ & _ & ->). auto.
  - destruct Hrun as (_ & ->). auto.
Qed.

Lemma reachable_invariant (P : database -> Prop) :
  P empty_database ->
  (forall now stats db record,
      normalized record -> P db -> P (snd (spec_sync_row now (stats, db) record))) ->
  forall c, reachable c -> P (disk c) /\ P (view c).
Proof.
  intros Hempty Hstep c Hc. induction Hc as [|c _ [IHd IHv]|c data now _ [IHd IHv]].
  - split; exact Hempty.
  - split; exact IHd.
  - destruct (sync_to_database_conn data now c) as (rs & Hn & -> & Hdisk).
    assert (P (snd (spec_sync now rs (view c)))) as Hfinal.
    { exact (fold_spec_sync_row_invariant P now rs _ _ (Hstep now) Hn IHv). }
    split; [|exact Hfinal].
    destruct Hdisk as [-> | ->]; assumption.
Qed.

Lemma map_hash_touched now h rows :
  map Interests.hash
    (map (fun r => if sql_eq (Interests.hash r) h then touch (VStr now) r else r) rows)
  = map Interests.hash rows.
Proof.
  rewrite map_map. apply map_ext. intros r.
  destruct (sql_eq (Interests.hash r) h); reflexivity.
Qed.

Lemma audit_ok_step now stats db record :
  normalized record -> audit_ok db ->
  audit_ok (snd (spec_sync_row now (stats, db) record)).
Proof.
  intros Hn (Hnd & Htext & Hev).
  destruct (normalized_field_hash record Hn) as [h Hh].
  unfold spec_sync_row. destruct (hash_present _ db) eqn:Hp; cbn [snd].
  - repeat split; cbn [interests changes].
    + by rewrite map_hash_touched.
    + apply Forall_map. eapply Forall_impl; [exact Htext|].
      intros r Hr. cbn beta. destruct (sql_eq _ _); exact Hr.
    + apply Forall2_fmap_l. eapply Forall2_impl; [exact Hev|].
      intros r e He. cbn beta. unfold compose.
      destruct (sql_eq _ _); exact He.
  - repeat split; cbn [interests changes].
    + rewrite map_app. apply NoDup_app. split; [exact Hnd|]. split.
      * intros x Hx Hx'. cbn [map new_interest Interests.hash] in Hx'.
        apply list_elem_of_singleton in Hx'. subst x.
        apply list_elem_of_In, in_map_iff in Hx as (r & Hr & Hin).
        unfold hash_present in Hp.
        assert (existsb (fun r => sql_eq (Interests.hash r) (field record "hash"))
                  (interests db) = true) as Hex; [|congruence].
        apply existsb_exists. exists r. split; [exact Hin|].
        rewrite Hr, Hh. unfold sql_eq. by rewrite bool_decide_eq_true_2.
      * cbn [map]. apply NoDup_singleton.
    + apply Forall_app. split; [exact Htext|].
      constructor; [|constructor]. exists h. exact Hh.
    + apply Forall2_app; [exact Hev|].
      constructor; [|constructor]. repeat split.
Qed.

Lemma sql_eq_sym a b : sql_eq a b = sql_eq b a.
Proof.
  destruct a, b; cbn [sql_eq]; try reflexivity;
    apply bool_decide_ext; split; congruence.
Qed.

(** The UNIQUE constraint holds after a row is processed if it held
    before, whatever the store and the record: the INSERT is only reached
    for a hash that no stored row has. *)
Lemma hash_unique_step now stats db record :
  hash_unique db -> hash_unique (snd (spec_sync_row now (stats, db) record)).
Proof.
  intros Hu. unfold spec_sync_row, hash_present.
  destruct (existsb _ (interests db)) eqn:Hp; cbn [snd]; intros i j r1 r2;
    cbn [interests].
  - change (map ?f ?l) with (f <$> l). rewrite !list_lookup_fmap.
    destruct (interests db !! i) as [x1|] eqn:H1; [|discriminate].
    destruct (interests db !! j) as [x2|] eqn:H2; [|discriminate].
    cbn [fmap option_fmap option_map]. intros [= <-] [= <-] He.
    apply (Hu i j x1 x2 H1 H2).
    destruct (sql_eq (Interests.hash x1) _), (sql_eq (Interests.hash x2) _); exact He.
  - assert (forall k r, interests db !! k = Some r ->
              sql_eq (Interests.hash r) (field record "hash") = false) as Hnone.
    { intros k r Hk. destruct (sql_eq _ _) eqn:He; [|reflexivity].
      assert (existsb (fun r => sql_eq (Interests.hash r) (field record "hash"))
                (interests db) = true) as Hex; [|congruence].
      apply existsb_exists. exists r. split; [|exact He].
      apply list_elem_of_In, list_elem_of_lookup. eauto. }
    rewrite !lookup_app_Some, !list_lookup_singleton_Some.
    intros [H1|(Hi & Hi0 & <-)] [H2|(Hj & Hj0 & <-)] He.
    + by apply (Hu i j r1 r2).
    + cbn [new_interest Interests.hash] in He. rewrite (Hnone i r1 H1) in He.
      discriminate He.
    + rewrite sql_eq_sym in He. cbn [new_interest Interests.hash] in He.
      rewrite (Hnone j r2 H2) in He. discriminate He.
    + lia.
Qed.

(** X11: on any store that meets the UNIQUE constraint on [hash], built
    by this program or not, a run of [sync_to_database], returned or
    raised, leaves a store that meets it: a hash that is stored is never
    inserted again. *)
Lemma sync_to_database_keeps_hash_unique data now c :
  hash_unique (view c) -> hash_unique (view (snd (sync_to_database data now c))).
Proof.
  intros Hu. destruct (sync_to_database_conn data now c) as (rs & Hn & -> & _).
  unfold spec_sync. apply (fold_spec_sync_row_invariant hash_unique); try assumption.
  intros stats db r _. apply hash_unique_step.
Qed.

Lemma remove_dups_NoDup (l : list pyval) : NoDup l -> remove_dups l = l.
Proof.
  induction 1 as [|x l Hx _ IH]; [reflexivity|].
  cbn [remove_dups]. rewrite IH. destruct (decide_rel _ x l); [contradiction|reflexivity].
Qed.

Lemma audit_ok_empty : audit_ok empty_database.
Proof. repeat split; constructor. Qed.

(** C3: in every database the program can reach from a fresh file,
    committed or as seen by a connection, after any runs on any inputs,
    whether they returned or raised, no two Interest Records have the
    same hash. *)
Theorem reachable_hash_unique c :
  reachable c ->
  NoDup (map Interests.hash (interests (disk c))) /\
  NoDup (map Interests.hash (interests (view c))).
Proof.
  intros Hc.
  destruct (reachable_invariant audit_ok audit_ok_empty audit_ok_step c Hc)
    as [(Hd & _) (Hv & _)].
  split; assumption.
Qed.

(** C4: in every database the program can reach from a fresh file, the
    Change Events of type "new" are as many as the distinct hashes of
    the Interest Records, and the log carries exactly those hashes, one
    event per record in the order of insertion. *)
Theorem reachable_audit_complete c db :
  reachable c -> db = disk c \/ db = view c ->
  length (filter (fun e => Changes.change_type e = VStr "new") (changes db)) =
    length (remove_dups (map Interests.hash (interests db))) /\
  map Changes.interest_hash (changes db) = map Interests.hash (interests db).
Proof.
  intros Hc Hdb.
  assert (audit_ok db) as (Hnd & _ & Hev).
  { destruct (reachable_invariant audit_ok audit_ok_empty audit_ok_step c Hc).
    destruct Hdb; subst; assumption. }
  rewrite (remove_dups_NoDup _ Hnd), length_map.
  clear Hnd. induction Hev as [|r e rows evs (Hh & Ht & _) _ [IH1 IH2]].
  - split; reflexivity.
  - split.
    + rewrite filter_cons_True by exact Ht. cbn [length]. by rewrite IH1.
    + cbn [map]. by rewrite Hh, IH2.
Qed.

Lemma added_since_step now db0 stats db record :
  added_since now db0 db ->
  added_since now db0 (snd (spec_sync_row now (stats, db) record)).
Proof.
  intros (old & ar & ae & Hi & Hlen & Hc & Hw).
  unfold spec_sync_row. destruct (hash_present _ db); cbn [snd].
  - set (f := fun r => if sql_eq (Interests.hash r) (field record "hash")
                       then touch (VStr now) r else r).
    exists (map f old), (map f ar), ae. cbn [interests changes].
    rewrite Hi, map_app, length_map. repeat split; try assumption.
    apply Forall2_fmap_l. eapply Forall2_impl; [exact Hw|].
    intros r e (H1 & H2 & H3 & H4). unfold compose, f, written_at.
    destruct (sql_eq _ _); cbn [touch Interests.hash Interests.first_seen
                                  Interests.last_seen]; auto.
  - exists old, (ar ++ [new_interest now record (next_id (map Interests.id (interests db)))])%list,
      (ae ++ [new_change now record (next_id (map Changes.id (changes db)))])%list.
    cbn [interests changes]. rewrite Hi, Hc, <- !app_assoc.
    repeat split; try assumption.
    apply Forall2_app; [exact Hw|]. constructor; [|constructor].
    repeat split.
Qed.

(** C10: whatever the store and the input, and whether the run returns
    or raises, the Change Events a run has written are matched one to
    one, in order, by the Interest Records it has inserted: each event
    has the hash of its record, and its [detected_at], the record's
    [first_seen] and the record's [last_seen] are all the timestamp of
    the run. *)
Theorem sync_to_database_event_times data now c :
  added_since now (view c) (view (snd (sync_to_database data now c))).
Proof.
  destruct (sync_to_database_conn data now c) as (rs & Hn & -> & _).
  unfold spec_sync.
  apply (fold_spec_sync_row_invariant (added_since now (view c))).
  - intros stats db r _. apply added_since_step.
  - exact Hn.
  - exists (interests (view c)), [], []. rewrite !app_nil_r.
    repeat split. constructor.
Qed.

(** *** The normalizer *)

Lemma compute_hash_ext (r1 r2 : gmap string pyval) :
  (forall f, In f key_fields -> r1 !! f = r2 !! f) ->
  compute_hash r1 = compute_hash r2.
Proof.
  intros Heq. unfold compute_hash, hash_str. do 2 f_equal.
  apply map_ext_in. intros f Hf. unfold dict_get. by rewrite (Heq f Hf).
Qed.

Lemma key_fields_not_hash f : In f key_fields -> f <> "hash".
Proof.
  unfold key_fields. cbn [In]. intros Hf ->.
  repeat (destruct Hf as [Hf|Hf]; [discriminate Hf|]). exact Hf.
Qed.

(** The string that is hashed for a row. *)
Lemma hash_str_record_display row category raw_json :
  hash_str (record_display row category raw_json) =
    String.concat "|"
      [ py_str (series_get row "member"); category;
        py_str (series_get row "summary"); py_str (series_get row "value");
        py_str (py_or (series_get row "payer_name") (series_get row "donor_name"));
        py_str (series_get row "received_date") ].
Proof.
  pose proof (record_display_lookup row category raw_json) as L. cbv zeta in L.
  destruct L as (_ & L1 & L2 & _ & _ & _ & L6 & L7 & L8 & L9 & _).
  unfold hash_str, key_fields, dict_get. cbn [map].
  rewrite L1, L2, L6, L7, L8, L9. reflexivity.
Qed.

(** C5: the identity hash of a normalized record is determined by the
    six fields member, category, summary, value, payer_name and
    received_date of the record: two normalizations that agree on them,
    and so two normalizations of one row under one category, give the
    same hash. *)
Theorem hash_determined_by_key_fields cr1 cr2 record1 record2 :
  normalizes cr1 record1 -> normalizes cr2 record2 ->
  (forall f, In f key_fields -> record1 !! f = record2 !! f) ->
  record1 !! "hash" = record2 !! "hash".
Proof.
  intros H1 H2 Heq.
  rewrite (normalized_hash record1), (normalized_hash record2)
    by (eexists; eassumption).
  do 2 f_equal. apply compute_hash_ext. intros f Hf.
  rewrite !lookup_delete_ne by (apply not_eq_sym, key_fields_not_hash, Hf).
  by apply Heq.
Qed.

(** C8, as the code has it: the payer_name of the record is the primary
    field of the row when that value is truthy, and the donor_name of
    the row otherwise, that is when the primary field is absent, or
    present and falsy: an empty string, a zero or [False]. *)
Theorem payer_name_falls_back_on_falsy row category record :
  normalize_row row category = Ok record ->
  record !! "payer_name" =
    Some (if py_bool (series_get row "payer_name")
          then series_get row "payer_name"
          else series_get row "donor_name").
Proof.
  intros Hn. apply normalize_row_Ok in Hn as (raw & _ & ->).
  rewrite lookup_insert_ne by done.
  pose proof (record_display_lookup row category raw) as L. cbv zeta in L.
  destruct L as (_ & _ & _ & _ & _ & _ & _ & _ & L8 & _). exact L8.
Qed.


(** *** Fetching *)

Lemma assoc_item_In {V} (d : list (string * V)) key :
  In key (map fst d) -> exists v, assoc_item d key = Ok v.
Proof.
  induction d as [|[k v] d IH]; cbn [map In assoc_item fst]; [tauto|].
  intros Hin. destruct (decide (k = key)); [eauto|].
  destruct Hin; [contradiction | auto].
Qed.

Lemma fetch_csv_Ok read_csv key :
  In key (map fst CATEGORIES) -> exists df, fetch_csv read_csv key = Ok df.
Proof.
  intros Hin. destruct (assoc_item_In CATEGORIES key Hin) as [file Hfile].
  unfold fetch_csv. rewrite Hfile. cbn [mbind result_bind].
  destruct (read_csv _); eauto.
Qed.

Lemma fetch_keys_Ok read_csv keys data0 :
  Forall (fun k => In k (map fst CATEGORIES)) keys ->
  exists data, fetch_keys read_csv keys data0 = Ok data.
Proof.
  revert data0. induction keys as [|k keys IH]; intros data0 Hk; cbn [fetch_keys].
  - eauto.
  - apply Forall_cons_1 in Hk as [Hk Hks].
    destruct (fetch_csv_Ok read_csv k Hk) as [df ->]. cbn [mbind result_bind].
    by apply IH.
Qed.

Lemma fetch_keys_skip read_csv key keys data0 :
  fetched_nothing read_csv key = true ->
  fetch_keys read_csv keys data0 =
    fetch_keys read_csv (filter (fun k => k <> key) keys) data0.
Proof.
  unfold fetched_nothing. intros Hnone. revert data0.
  induction keys as [|k keys IH]; intros data0; [reflexivity|].
  destruct (decide (k = key)) as [->|Hne].
  - rewrite filter_cons_False by auto. cbn [fetch_keys].
    destruct (fetch_csv read_csv key) as [df|e]; [|discriminate].
    cbn [mbind result_bind]. rewrite Hnone. apply IH.
  - rewrite filter_cons_True by exact Hne. cbn [fetch_keys].
    destruct (fetch_csv read_csv k) as [df|e]; cbn [mbind result_bind];
      [apply IH | reflexivity].
Qed.

Lemma assoc_set_other {V} (d : list (string * V)) k key v :
  k <> key -> Forall (fun cd => fst cd <> key) d ->
  Forall (fun cd => fst cd <> key) (assoc_set d k v).
Proof.
  intros Hne. induction 1 as [|[k' v'] d Hk' Hd IH]; cbn [assoc_set].
  - constructor; [exact Hne | constructor].
  - destruct (decide (k' = k)); constructor; auto.
Qed.

Lemma fetch_keys_without read_csv key keys data0 data :
  fetched_nothing read_csv key = true ->
  Forall (fun cd => fst cd <> key) data0 ->
  fetch_keys read_csv keys data0 = Ok data ->
  Forall (fun cd => fst cd <> key) data.
Proof.
  unfold fetched_nothing. intros Hnone. revert data0.
  induction keys as [|k keys IH]; intros data0 H0; cbn [fetch_keys].
  - intros [= <-]. exact H0.
  - destruct (fetch_csv read_csv k) as [df|e] eqn:Hk; cbn [mbind result_bind];
      [|discriminate].
    apply IH. destruct (df_empty df) eqn:He; [exact H0|].
    apply assoc_set_other; [|exact H0].
    intros ->. rewrite Hk in Hnone. congruence.
Qed.

Lemma rows_of_without key data :
  Forall (fun cd : string * DataFrame => fst cd <> key) data ->
  Forall (fun cr => fst cr <> key) (rows_of data).
Proof.
  induction 1 as [|[k df] data Hk _ IH]; [constructor|].
  unfold rows_of. cbn [flat_map fst snd]. apply Forall_app. split; [|exact IH].
  apply Forall_map. apply Forall_forall. intros row _. exact Hk.
Qed.

Lemma sync_to_database_empty_frame pre key post now c :
  sync_to_database (pre ++ (key, []) :: post) now c =
  sync_to_database (pre ++ post) now c.
Proof.
  unfold sync_to_database, mbind, M_bind.
  enough (forall stats c,
             sync_categories now (pre ++ (key, []) :: post) stats c =
             sync_categories now (pre ++ post) stats c) as -> by reflexivity.
  induction pre as [|[k df] pre IH]; intros stats c'.
  - reflexivity.
  - cbn [app sync_categories]. unfold mbind, M_bind, lift.
    destruct (process_earnings_data df k); [|reflexivity].
    destruct (sync_records now a stats c') as [[stats'|e] c'']; [apply IH | reflexivity].
Qed.

(** C9: a category whose fetch came back with no data, be it an empty
    frame or a failed download, raises nothing and is left out of the
    dataset: [fetch_all_data] returns the dataset it returns when that
    category is not asked for at all, no row of the category reaches
    [sync_to_database], and a category that does reach it with no rows
    leaves the counts, the store and the outcome of the run as they are
    without it. *)
Theorem empty_category_contributes_nothing read_csv key :
  fetched_nothing read_csv key = true ->
  exists data,
    fetch_all_data read_csv = Ok data /\
    fetch_keys read_csv (filter (fun k => k <> key) (map fst CATEGORIES)) [] = Ok data /\
    Forall (fun cr => fst cr <> key) (rows_of data) /\
    forall pre post now c,
      sync_to_database (pre ++ (key, []) :: post) now c =
      sync_to_database (pre ++ post) now c.
Proof.
  intros Hnone.
  destruct (fetch_keys_Ok read_csv (map fst CATEGORIES) []) as [data Hdata].
  { apply Forall_forall. intros k Hk. by apply list_elem_of_In. }
  exists data. unfold fetch_all_data. split; [exact Hdata|]. split.
  - by rewrite <- (fetch_keys_skip read_csv key).
  - split.
    + apply rows_of_without.
      eapply fetch_keys_without; [exact Hnone | constructor | exact Hdata].
    + intros. apply sync_to_database_empty_frame.
Qed.

End Properties.

(** ** Further properties of the normalizer, the fetch and the run *)

Section Further.
Context `{RT : Runtime}.

Lemma normalize_row_record_from row category record :
  normalize_row row category = Ok record -> record_from category row record.
Proof.
  intros Hn. apply normalize_row_Ok in Hn as (raw & Hraw & ->).
  pose proof (record_display_lookup row category raw) as L. cbv zeta in L.
  destruct L as (_ & L1 & L2 & L3 & L4 & L5 & L6 & L7 & L8 & L9 & L10 & L11 & L12).
  unfold record_from. split; [|split; [|split; [|split]]].
  - by rewrite lookup_insert_ne.
  - intros k Hk. cbn [In] in Hk.
    repeat (destruct Hk as [<-|Hk]; [by rewrite lookup_insert_ne|]). destruct Hk.
  - by rewrite lookup_insert_ne.
  - exists raw. split; [exact Hraw|]. by rewrite lookup_insert_ne.
  - rewrite lookup_insert_eq. unfold compute_hash.
    by rewrite hash_str_record_display.
Qed.

(** X1: when [process_earnings_data] returns, it returns one record per
    row, in the order of the rows, each with the category label, the
    cells of its row under the ten names taken from it ([None] where the
    row has no such cell), the serialized row, and as hash the MD5 of the
    six identity values joined by a bar. *)
Theorem process_earnings_data_records df category records :
  process_earnings_data df category = Ok records ->
  length records = length df /\ Forall2 (record_from category) df records.
Proof.
  intros Hp. apply process_earnings_data_Ok in Hp.
  split; [symmetry; eapply Forall2_length; exact Hp|].
  eapply Forall2_impl; [exact Hp|]. intros row r. apply normalize_row_record_from.
Qed.

(** X2: [process_earnings_data] raises exactly when serializing some row
    raises, and what it raises is the exception of the first such row;
    the records of the rows before it are lost with it. *)
Theorem process_earnings_data_first_failure df category e :
  process_earnings_data df category = Raise e <->
  exists before row after,
    df = (before ++ row :: after)%list /\
    Forall (fun r => exists raw_json, json_dumps r = Ok raw_json) before /\
    json_dumps row = Raise e.
Proof.
  induction df as [|row df IH]; cbn [process_earnings_data].
  - split; [discriminate|]. intros (b & r & a & Heq & _). by destruct b.
  - unfold mbind, result_bind, mret, result_ret.
    destruct (normalize_row row category) as [rec|e'] eqn:Hr.
    + apply normalize_row_Ok in Hr as (raw & Hraw & _).
      destruct (process_earnings_data df category) as [recs|e''].
      * split; [discriminate|].
        intros (b & r & a & Heq & Hb & Hfail). destruct b as [|r0 b];
          injection Heq as -> ->; [congruence|].
        apply Forall_cons_1 in Hb as [_ Hb].
        destruct IH as [_ IH]. discriminate IH. eauto 10.
      * split.
        -- intros Heq. apply IH in Heq as (b & r & a & -> & Hb & Hfail).
           exists (row :: b), r, a. split; [reflexivity|]. split; [|exact Hfail].
           constructor; eauto.
        -- intros (b & r & a & Heq & Hb & Hfail). destruct b as [|r0 b];
             injection Heq as -> ->; [congruence|].
           apply Forall_cons_1 in Hb as [_ Hb]. apply IH. eauto 10.
    + apply normalize_row_Raise in Hr. split.
      * intros [= ->]. exists [], row, df. split; [reflexivity|].
        split; [constructor | exact Hr].
      * intros (b & r & a & Heq & Hb & Hfail). destruct b as [|r0 b];
          injection Heq as -> ->; [congruence|].
        apply Forall_cons_1 in Hb as [[raw Hraw] _]. congruence.
Qed.

Lemma string_app_assoc (a b c : string) : (a +:+ b) +:+ c = a +:+ (b +:+ c).
Proof.
  induction a as [|ch a IH]; [reflexivity|].
  change (String ch ((a +:+ b) +:+ c) = String ch (a +:+ (b +:+ c))). by rewrite IH.
Qed.

Lemma record_from_hash_text category1 category2 row1 row2 record1 record2 :
  record_from category1 row1 record1 -> record_from category2 row2 record2 ->
  String.concat "|"
    [ py_str (series_get row1 "member"); category1;
      py_str (series_get row1 "summary"); py_str (series_get row1 "value");
      py_str (py_or (series_get row1 "payer_name") (series_get row1 "donor_name"));
      py_str (series_get row1 "received_date") ]
  = String.concat "|"
      [ py_str (series_get row2 "member"); category2;
        py_str (series_get row2 "summary"); py_str (series_get row2 "value");
        py_str (py_or (series_get row2 "payer_name") (series_get row2 "donor_name"));
        py_str (series_get row2 "received_date") ] ->
  record1 !! "hash" = record2 !! "hash".
Proof.
  intros (_ & _ & _ & _ & H1) (_ & _ & _ & _ & H2) Heq. by rewrite H1, H2, Heq.
Qed.

(** X3: the identity hash sees the cells of a row only through their
    [str()]: two rows of one category whose member, summary, value and
    received_date read the same as text, and whose resolved payers do,
    get the same hash, whatever the types of the cells; a missing cell
    and the text None, the number 100 and the text 100 are one identity. *)
Theorem hash_sees_only_text row1 row2 category record1 record2 :
  normalize_row row1 category = Ok record1 ->
  normalize_row row2 category = Ok record2 ->
  (forall k, In k ["member"; "summary"; "value"; "received_date"] ->
             py_str (series_get row1 k) = py_str (series_get row2 k)) ->
  py_str (py_or (series_get row1 "payer_name") (series_get row1 "donor_name"))
  = py_str (py_or (series_get row2 "payer_name") (series_get row2 "donor_name")) ->
  record1 !! "hash" = record2 !! "hash".
Proof.
  intros H1 H2 Hcells Hpayer.
  apply (record_from_hash_text category category row1 row2);
    try by apply normalize_row_record_from.
  rewrite Hpayer, !Hcells by (cbn [In]; tauto). reflexivity.
Qed.

(** X4: the bar that joins the fields is not escaped in them: a bar at
    the end of the summary can move to the front of the value, and the
    two rows, different in both fields, get the same hash. *)
Theorem hash_bar_moves row1 row2 category record1 record2 x y z :
  normalize_row row1 category = Ok record1 ->
  normalize_row row2 category = Ok record2 ->
  series_get row1 "summary" = VStr (x +:+ "|" +:+ y) ->
  series_get row1 "value" = VStr z ->
  series_get row2 "summary" = VStr x ->
  series_get row2 "value" = VStr (y +:+ "|" +:+ z) ->
  series_get row1 "member" = series_get row2 "member" ->
  py_or (series_get row1 "payer_name") (series_get row1 "donor_name")
  = py_or (series_get row2 "payer_name") (series_get row2 "donor_name") ->
  series_get row1 "received_date" = series_get row2 "received_date" ->
  record1 !! "hash" = record2 !! "hash".
Proof.
  intros H1 H2 Hs1 Hv1 Hs2 Hv2 Hm Hp Hd.
  apply (record_from_hash_text category category row1 row2);
    try by apply normalize_row_record_from.
  rewrite Hs1, Hv1, Hs2, Hv2, Hm, Hp, Hd. cbn [String.concat py_str].
  rewrite !string_app_assoc. reflexivity.
Qed.

Lemma length_le_bytes n x : length (MD5.le_bytes n x) = n.
Proof. revert x. induction n as [|n IH]; intros x; cbn [MD5.le_bytes length]; auto. Qed.

Lemma le_bytes_range n x : Forall (fun b => 0 <= b < 256) (MD5.le_bytes n x).
Proof.
  revert x. induction n as [|n IH]; intros x; cbn [MD5.le_bytes]; constructor; [|apply IH].
  change 0xff with (Z.ones 8). rewrite Z.land_ones by lia.
  change (2 ^ 8) with 256. apply Z.mod_pos_bound. lia.
Qed.

Lemma hex_digit_hex_chars d : 0 <= d < 16 -> In (MD5.hex_digit d) hex_chars.
Proof.
  intros Hd. unfold MD5.hex_digit, hex_chars.
  assert (Z.to_nat d < 16)%nat as Hn by lia.
  destruct (Z.to_nat d) as [|n]; [cbn; tauto|].
  do 15 (destruct n as [|n]; [cbn; tauto|]). lia.
Qed.

Lemma hex_format bs :
  Forall (fun b => 0 <= b < 256) bs ->
  String.length (MD5.hex bs) = (2 * length bs)%nat /\
  Forall (fun ch => In ch hex_chars) (list_ascii_of_string (MD5.hex bs)).
Proof.
  induction 1 as [|b bs Hb _ [IHl IHc]]; cbn [MD5.hex String.length length list_ascii_of_string].
  - split; [reflexivity | constructor].
  - split; [rewrite IHl; lia|].
    constructor; [|constructor; [|exact IHc]]; apply hex_digit_hex_chars.
    + rewrite Z.shiftr_div_pow2 by lia. change (2 ^ 4) with 16.
      split; [apply Z.div_pos; lia | apply Z.div_lt_upper_bound; lia].
    + change 0xf with (Z.ones 4). rewrite Z.land_ones by lia.
      change (2 ^ 4) with 16. apply Z.mod_pos_bound. lia.
Qed.

(** X5: whatever the record, [compute_hash] returns thirty-two characters,
    each one of 0123456789abcdef: the hash is never empty, never longer
    and never upper case. *)
Theorem compute_hash_format record :
  String.length (compute_hash record) = 32%nat /\
  Forall (fun ch => In ch hex_chars) (list_ascii_of_string (compute_hash record)).
Proof.
  unfold compute_hash, MD5.hexdigest, MD5.digest. cbv zeta.
  generalize (fold_left MD5.process_block (MD5.blocks (MD5.pad (MD5.encode (hash_str record))))
                MD5.init_state).
  intros st.
  destruct (hex_format
              (MD5.le_bytes 4 (MD5.sA st) ++ MD5.le_bytes 4 (MD5.sB st)
                 ++ MD5.le_bytes 4 (MD5.sC st) ++ MD5.le_bytes 4 (MD5.sD st))%list)
    as [Hl Hc].
  { repeat (apply Forall_app; split); apply le_bytes_range. }
  split; [|exact Hc].
  rewrite Hl, !length_app, !length_le_bytes. reflexivity.
Qed.

Lemma kept_since_step now db0 stats db record :
  kept_since now db0 db ->
  kept_since now db0 (snd (spec_sync_row now (stats, db) record)).
Proof.
  intros (old & ar & ae & Hi & Hold & Hc).
  unfold spec_sync_row. destruct (hash_present _ db); cbn [snd].
  - set (f := fun r => if sql_eq (Interests.hash r) (field record "hash")
                       then touch (VStr now) r else r).
    exists (map f old), (map f ar), ae. cbn [interests changes].
    rewrite Hi, map_app. split; [reflexivity|]. split; [|exact Hc].
    apply Forall2_fmap_r. eapply Forall2_impl; [exact Hold|].
    intros r r' Hr. unfold f, same_or_touched, compose in *.
    destruct (sql_eq (Interests.hash r') (field record "hash")); [|exact Hr].
    right. destruct Hr as [-> | ->]; reflexivity.
  - exists old, (ar ++ [new_interest now record (next_id (map Interests.id (interests db)))])%list,
      (ae ++ [new_change now record (next_id (map Changes.id (changes db)))])%list.
    cbn [interests changes]. rewrite Hi, Hc, <- !app_assoc. auto.
Qed.

(** X7: a run of [sync_to_database], returned or raised, on any store and
    input, deletes nothing and rewrites nothing but [last_seen]: every
    Interest Record there before is still there, in place, either
    untouched or with [last_seen] set to the timestamp of the run and
    its id, hash, [first_seen] and other columns as they were, the new
    records come after them, and the change log is the old log with the
    new events appended. *)
Theorem sync_to_database_keeps_records data now c :
  kept_since now (view c) (view (snd (sync_to_database data now c))).
Proof.
  destruct (sync_to_database_conn data now c) as (rs & Hn & -> & _).
  unfold spec_sync.
  apply (fold_spec_sync_row_invariant (kept_since now (view c))).
  - intros stats db r _. apply kept_since_step.
  - exact Hn.
  - exists (interests (view c)), [], []. rewrite !app_nil_r.
    split; [reflexivity|]. split; [|reflexivity].
    apply Forall2_same_length_lookup_2; [reflexivity|].
    intros i x y Hx Hy. left. congruence.
Qed.

Lemma fold_right_max_from m l :
  0 <= m -> fold_right Z.max m l = Z.max m (fold_right Z.max 0 l).
Proof. intros Hm. induction l as [|x l IH]; cbn [fold_right]; lia. Qed.

Lemma max_ids n : fold_right Z.max 0 (map Z.of_nat (seq 1 n)) = Z.of_nat n.
Proof.
  induction n as [|n IH]; [reflexivity|].
  rewrite seq_S, map_app, fold_right_app. cbn [map fold_right Nat.add].
  rewrite fold_right_max_from by lia. lia.
Qed.

Lemma next_id_numbered n : next_id (map Z.of_nat (seq 1 n)) = Z.of_nat (S n).
Proof. unfold next_id. rewrite max_ids. lia. Qed.

Lemma numbered_step now stats db record :
  numbered db -> numbered (snd (spec_sync_row now (stats, db) record)).
Proof.
  intros [Hi Hc]. unfold spec_sync_row. destruct (hash_present _ db); cbn [snd].
  - split; cbn [interests changes]; [|exact Hc].
    rewrite length_map, map_map, <- Hi. apply map_ext. intros r.
    destruct (sql_eq _ _); reflexivity.
  - split; cbn [interests changes]; rewrite map_app, length_app, Nat.add_1_r, seq_S, map_app.
    + cbn [map new_interest Interests.id]. rewrite Hi at 1 2.
      by rewrite next_id_numbered.
    + cbn [map new_change Changes.id]. rewrite Hc at 1 2.
      by rewrite next_id_numbered.
Qed.

(** X8: in every database the program can reach from a fresh file the
    Interest Records are numbered 1, 2, 3, ... in the order in which they
    were inserted, and so are the Change Events: ids are never reused or
    skipped, and an event has the id of the record it announces. *)
Theorem reachable_numbered c db :
  reachable c -> db = disk c \/ db = view c -> numbered db.
Proof.
  intros Hc Hdb.
  destruct (reachable_invariant numbered) with (c := c) as [Hd Hv]; try assumption.
  - split; reflexivity.
  - intros now stats db' r _. apply numbered_step.
  - destruct Hdb; subst; assumption.
Qed.

Lemma seen_in_app records1 records2 r :
  seen_in (records1 ++ records2) r = seen_in records1 r || seen_in records2 r.
Proof. unfold seen_in. apply existsb_app. Qed.

Lemma last_seen_step now processed stats db record :
  Forall (fun r => seen_in processed r = true -> Interests.last_seen r = VStr now)
         (interests db) ->
  Forall (fun r => seen_in (processed ++ [record]) r = true ->
                   Interests.last_seen r = VStr now)
         (interests (snd (spec_sync_row now (stats, db) record))).
Proof.
  intros Hinv. unfold spec_sync_row, hash_present.
  destruct (existsb _ (interests db)) eqn:Hp; cbn [snd interests].
  - apply Forall_map. eapply Forall_impl; [exact Hinv|].
    intros r Hr. cbn beta. rewrite seen_in_app. unfold seen_in at 2. cbn [existsb].
    destruct (sql_eq (Interests.hash r) (field record "hash")) eqn:He.
    + intros _. reflexivity.
    + rewrite He, !orb_false_r. exact Hr.
  - apply Forall_app. split; [|constructor; [intros _; reflexivity | constructor]].
    apply Forall_forall. intros r Hin. rewrite seen_in_app. unfold seen_in at 2.
    cbn [existsb].
    assert (sql_eq (Interests.hash r) (field record "hash") = false) as ->.
    { destruct (sql_eq _ _) eqn:He; [|reflexivity].
      assert (existsb (fun r => sql_eq (Interests.hash r) (field record "hash"))
                (interests db) = true) as Hex; [|congruence].
      apply existsb_exists. exists r. split; [by apply list_elem_of_In | exact He]. }
    rewrite !orb_false_r. revert r Hin. exact (proj1 (Forall_forall _ _) Hinv).
Qed.

Lemma fold_last_seen now records stats db :
  Forall (fun r => seen_in records r = true -> Interests.last_seen r = VStr now)
         (interests (snd (fold_left (spec_sync_row now) records (stats, db)))).
Proof.
  induction records as [|record records IH] using rev_ind.
  - apply Forall_forall. intros r _. discriminate.
  - rewrite fold_left_app. cbn [fold_left].
    destruct (fold_left (spec_sync_row now) records (stats, db)) as [stats1 db1].
    by apply last_seen_step.
Qed.

(** X10: after a run, binds included, on a dataset whose rows all
    normalize and whose ints all fit the signed 64 bits, every row of the input
    is in the store: a record with the hash of the row is there, and
    every stored record whose hash occurs in the input has the timestamp
    of the run as its [last_seen]. *)
Theorem sync_to_database_marks_seen data now c records :
  Forall2 normalizes (rows_of data) records ->
  int64_data data ->
  let db := view (snd (sync_to_database_checked data now c)) in
  Forall (fun record =>
            exists r, In r (interests db) /\
                      Interests.hash r = field record "hash" /\
                      Interests.last_seen r = VStr now)
         records /\
  Forall (fun r => seen_in records r = true -> Interests.last_seen r = VStr now)
         (interests db).
Proof.
  intros Hrows Hint db.
  assert (Forall normalized records) as Hn.
  { clear -Hrows. induction Hrows as [|cr r ? ? Hr _ IH]; constructor; [by exists cr | exact IH]. }
  subst db. rewrite (sync_to_database_checked_int64 data now c Hint).
  rewrite (sync_to_database_returns data now c records Hrows). cbn [snd view].
  pose proof (fold_last_seen now records (mk_stats 0 0) (view c)) as Hseen.
  pose proof (fold_spec_sync_row_present now records (mk_stats 0 0) (view c) Hn) as Hpres.
  fold (spec_sync now records (view c)) in Hseen, Hpres.
  split; [|exact Hseen].
  apply Forall_forall. intros record Hrec.
  pose proof (proj1 (Forall_forall _ _) Hpres record Hrec) as Hp. cbn beta in Hp.
  pose proof (proj1 (Forall_forall _ _) Hn record Hrec) as Hnr.
  destruct (normalized_field_hash record Hnr) as [h Hh].
  unfold hash_present in Hp. apply existsb_exists in Hp as (r & Hin & He).
  exists r. split; [exact Hin|].
  assert (Interests.hash r = field record "hash") as Heq.
  { rewrite Hh in *. unfold sql_eq in He.
    destruct (Interests.hash r); try discriminate He; by apply bool_decide_eq_true_1 in He. }
  split; [exact Heq|].
  apply (proj1 (Forall_forall _ _) Hseen r); [by apply list_elem_of_In|].
  unfold seen_in. apply existsb_exists. exists record.
  split; [by apply list_elem_of_In|]. rewrite Heq, Hh. unfold sql_eq.
  by rewrite bool_decide_eq_true_2.
Qed.

Lemma hash_present_text h db :
  hash_present (VStr h) db = bool_decide (VStr h ∈ map Interests.hash (interests db)).
Proof.
  unfold hash_present. induction (interests db) as [|r rows IH]; cbn [existsb map].
  - symmetry. apply bool_decide_eq_false_2. apply not_elem_of_nil.
  - rewrite IH, sql_eq_text. apply eq_true_iff_eq.
    rewrite orb_true_iff, !bool_decide_eq_true, elem_of_cons.
    split; (intros [Heq|Hin]; [left; congruence | right; exact Hin]).
Qed.

Lemma count_seen (stored hs : list pyval) h :
  h ∈ stored ->
  remove_dups (filter (fun x => x ∉ stored) (h :: hs))
  = remove_dups (filter (fun x => x ∉ stored) hs).
Proof. intros Hin. by rewrite filter_cons_False by auto. Qed.

Lemma count_fresh (stored hs : list pyval) h :
  h ∉ stored ->
  length (remove_dups (filter (fun x => x ∉ stored) (h :: hs)))
  = S (length (remove_dups (filter (fun x => x ∉ (stored ++ [h])%list) hs))).
Proof.
  intros Hnew. rewrite filter_cons_True by exact Hnew.
  change (S (length ?l)) with (length (h :: l)).
  apply Permutation_length, NoDup_Permutation.
  - apply NoDup_remove_dups.
  - constructor; [|apply NoDup_remove_dups].
    rewrite elem_of_remove_dups, list_elem_of_filter, elem_of_app, list_elem_of_singleton.
    tauto.
  - intros x.
    rewrite elem_of_remove_dups, !elem_of_cons, elem_of_remove_dups,
      !list_elem_of_filter, elem_of_app, list_elem_of_singleton.
    destruct (decide (x = h)); tauto.
Qed.

Lemma fold_spec_sync_row_new now records stats db :
  Forall normalized records ->
  new (fst (fold_left (spec_sync_row now) records (stats, db)))
  = new stats + Z.of_nat (length (unseen_hashes records db)).
Proof.
  revert stats db. induction records as [|r records IH]; intros stats db Hn.
  - cbn. lia.
  - apply Forall_cons_1 in Hn as [Hr Hn]. cbn [fold_left].
    destruct (normalized_field_hash r Hr) as [h Hh].
    unfold unseen_hashes. cbn [map]. rewrite Hh.
    unfold spec_sync_row at 2. rewrite Hh, hash_present_text.
    destruct (decide (VStr h ∈ map Interests.hash (interests db))) as [Hin|Hout].
    + rewrite bool_decide_eq_true_2 by exact Hin. rewrite IH by exact Hn.
      rewrite count_seen by exact Hin. unfold unseen_hashes.
      cbn [new interests]. by rewrite map_hash_touched.
    + rewrite bool_decide_eq_false_2 by exact Hout. rewrite IH by exact Hn.
      rewrite count_fresh by exact Hout. unfold unseen_hashes.
      cbn [new interests]. rewrite map_app. cbn [map new_interest Interests.hash].
      rewrite Hh. lia.
Qed.

Lemma fold_spec_sync_row_bounds now records stats db :
  0 <= new stats <= total stats ->
  let s' := fst (fold_left (spec_sync_row now) records (stats, db)) in
  0 <= new s' <= total s'.
Proof.
  revert stats db. induction records as [|r records IH]; intros stats db Hb;
    cbn [fold_left]; [exact Hb|].
  assert (0 <= new (fst (spec_sync_row now (stats, db) r))
          <= total (fst (spec_sync_row now (stats, db) r))) as Hstep.
  { unfold spec_sync_row. destruct (hash_present _ db); cbn [fst new total]; lia. }
  destruct (spec_sync_row now (stats, db) r) as [stats1 db1]. by apply IH.
Qed.

(** X9: when every row normalizes and every int of the dataset fits the
    signed 64 bits SQLite binds, the [new] that the run, binds included,
    returns is the number of distinct hashes among the rows of the input
    that no stored record has: a hash that occurs several times in one
    dataset counts once, and [new] lies between zero and [total]. *)
Theorem sync_to_database_new_count data now c records :
  Forall2 normalizes (rows_of data) records ->
  int64_data data ->
  exists stats c',
    sync_to_database_checked data now c = (Ok stats, c') /\
    new stats = Z.of_nat (length (unseen_hashes records (view c))) /\
    0 <= new stats <= total stats.
Proof.
  intros Hrows Hint. rewrite (sync_to_database_checked_int64 data now c Hint).
  eexists _, _. split; [by apply sync_to_database_returns|].
  assert (Forall normalized records) as Hn.
  { clear -Hrows. induction Hrows as [|cr r ? ? Hr _ IH]; constructor; [by exists cr | exact IH]. }
  unfold spec_sync. split.
  - by rewrite fold_spec_sync_row_new.
  - apply fold_spec_sync_row_bounds. cbn. lia.
Qed.

Lemma assoc_item_Raise {V} (d : list (string * V)) key e :
  assoc_item d key = Raise e <-> e = KeyError key /\ ~ In key (map fst d).
Proof.
  induction d as [|[k v] d IH]; cbn [assoc_item map In fst].
  - split; [intros [= <-]; tauto | intros [-> _]; reflexivity].
  - destruct (decide (k = key)) as [->|Hne].
    + split; [discriminate | tauto].
    + rewrite IH. tauto.
Qed.

(** X13: [fetch_csv] raises for one reason only, a key that is not in
    [CATEGORIES], and then a [KeyError]; whatever the download raises is
    swallowed, and the caller gets an empty frame instead. *)
Theorem fetch_csv_raises_only_KeyError read_csv key e :
  fetch_csv read_csv key = Raise e <->
  e = KeyError key /\ ~ In key (map fst CATEGORIES).
Proof.
  unfold fetch_csv. rewrite <- assoc_item_Raise.
  destruct (assoc_item CATEGORIES key) as [file|e']; cbn [mbind result_bind].
  - destruct (read_csv _); split; discriminate.
  - split; intros [= ->]; reflexivity.
Qed.

Lemma assoc_set_fresh {V} (d : list (string * V)) key v :
  key ∉ map fst d -> assoc_set d key v = (d ++ [(key, v)])%list.
Proof.
  induction d as [|[k v'] d IH]; cbn [assoc_set map fst app]; [reflexivity|].
  intros Hk. apply not_elem_of_cons in Hk as [Hne Hk].
  destruct (decide (k = key)); [congruence|]. by rewrite IH.
Qed.

Lemma fetch_keys_entries read_csv entries data0 :
  Forall (fun entry => assoc_item CATEGORIES (fst entry) = Ok (snd entry)) entries ->
  NoDup (map fst entries) ->
  (forall k, k ∈ map fst entries -> k ∉ map fst data0) ->
  fetch_keys read_csv (map fst entries) data0
  = Ok (data0 ++ omap (fetched read_csv) entries)%list.
Proof.
  revert data0. induction entries as [|[k file] entries IH]; intros data0 Hfiles Hnd Hfresh.
  - cbn. by rewrite app_nil_r.
  - apply Forall_cons_1 in Hfiles as [Hfile Hfiles].
    cbn [map fst] in Hnd, Hfresh. apply NoDup_cons in Hnd as [Hk Hnd].
    cbn [map fst fetch_keys omap list_omap]. unfold fetch_csv, fetched.
    cbn [fst snd] in *. rewrite Hfile. cbn [mbind result_bind].
    destruct (read_csv _) as [df|e]; cbn [mbind result_bind mret result_ret].
    + destruct (df_empty df).
      * apply IH; try assumption. intros k' Hk'. apply Hfresh. by right.
      * rewrite assoc_set_fresh by (apply Hfresh; left).
        rewrite IH; try assumption.
        -- by rewrite <- app_assoc.
        -- intros k' Hk'. rewrite map_app. cbn [map fst].
           rewrite elem_of_app, list_elem_of_singleton.
           intros [Hin | ->]; [|contradiction].
           revert Hin. apply Hfresh. by right.
    + cbn [df_empty]. apply IH; try assumption.
      intros k' Hk'. apply Hfresh. by right.
Qed.

(** X12: [fetch_all_data] never raises, and the dataset it returns is
    [CATEGORIES] in its order with, for each category, the frame
    downloaded for its file, the categories whose download failed or
    came back empty left out: no category twice, none renamed, no frame
    altered. *)
Theorem fetch_all_data_keeps_nonempty read_csv :
  fetch_all_data read_csv = Ok (omap (fetched read_csv) CATEGORIES).
Proof.
  unfold fetch_all_data. rewrite fetch_keys_entries; [reflexivity| | |].
  - repeat constructor.
  - apply (bool_decide_unpack _). vm_compute. exact I.
  - intros k _. apply not_elem_of_nil.
Qed.

Lemma fetch_keys_nothing read_csv keys data0 :
  Forall (fun k => fetched_nothing read_csv k = true) keys ->
  fetch_keys read_csv keys data0 = Ok data0.
Proof.
  induction 1 as [|k keys Hk _ IH]; cbn [fetch_keys]; [reflexivity|].
  unfold fetched_nothing in Hk. destruct (fetch_csv read_csv k) as [df|e]; [|discriminate].
  cbn [mbind result_bind]. by rewrite Hk.
Qed.

(** X14: when no download brings data, every one failing or coming back
    empty, [run_sync] still returns as a run that went well: the counts
    are zero, nothing is raised, and the database is the one it opened,
    empty for a new file. *)
Theorem run_sync_outage read_csv now db_file :
  (forall url, match read_csv url with
               | Ok df => df_empty df = true
               | Raise _ => True
               end) ->
  run_sync read_csv now db_file = (Ok (mk_stats 0 0), init_database db_file).
Proof.
  intros Hnone. unfold run_sync, fetch_all_data.
  rewrite fetch_keys_nothing; [reflexivity|].
  apply Forall_forall. intros k Hk. apply list_elem_of_In in Hk.
  destruct (assoc_item_In CATEGORIES k Hk) as [file Hfile].
  unfold fetched_nothing, fetch_csv. rewrite Hfile. cbn [mbind result_bind].
  specialize (Hnone (MYSOCIETY_BASE +:+ "/" +:+ file)).
  destruct (read_csv _); [exact Hnone | reflexivity].
Qed.

Lemma sync_to_database_again data now1 now2 c stats1 c1 :
  sync_to_database data now1 c = (Ok stats1, c1) ->
  disk c1 = view c1 /\
  forall c', view c' = view c1 ->
    exists records,
      sync_to_database data now2 c'
      = (Ok (mk_stats 0 (total stats1)),
         mk_connection
           (mk_database (refresh now2 records (interests (view c1))) (changes (view c1)))
           (mk_database (refresh now2 records (interests (view c1))) (changes (view c1)))).
Proof.
  intros Hrun1.
  destruct (sync_to_database_run data now1 c) as (rs & Hn & Hrun).
  rewrite Hrun1 in Hrun. cbn [fst snd] in Hrun. destruct Hrun as (Hrs & -> & ->).
  split; [reflexivity|]. intros c' Hview. exists rs.
  rewrite (sync_to_database_returns data now2 c' rs Hrs), Hview. cbn [view].
  pose proof (fold_spec_sync_row_present now1 rs (mk_stats 0 0) (view c) Hn) as Hp.
  fold (spec_sync now1 rs (view c)) in Hp.
  pose proof (fold_spec_sync_row_refresh now2 rs (mk_stats 0 0) _ Hp) as Hr.
  fold (spec_sync now2 rs (snd (spec_sync now1 rs (view c)))) in Hr.
  rewrite Hr. cbn [fst snd new total].
  pose proof (fold_spec_sync_row_counts now1 rs (mk_stats 0 0) (view c)) as Hc.
  cbv zeta in Hc. fold (spec_sync now1 rs (view c)) in Hc. cbn [total] in Hc.
  destruct Hc as (-> & _). reflexivity.
Qed.

(** X15: the whole program run twice on a feed that has not changed: if
    the first [run_sync] returned, the second, on the database file the
    first left, returns [new = 0] and the same [total], writes no Change
    Event and adds no Interest Record. *)
Theorem run_sync_twice read_csv now1 now2 db_file stats1 c1 :
  run_sync read_csv now1 db_file = (Ok stats1, c1) ->
  exists stats2 c2,
    run_sync read_csv now2 (Some (disk c1)) = (Ok stats2, c2) /\
    new stats2 = 0 /\
    total stats2 = total stats1 /\
    changes (disk c2) = changes (disk c1) /\
    length (interests (disk c2)) = length (interests (disk c1)).
Proof.
  unfold run_sync. destruct (fetch_all_data read_csv) as [data|e]; [|discriminate].
  intros Hrun1.
  destruct (sync_to_database_again data now1 now2 _ _ _ Hrun1) as [Hdisk Hagain].
  destruct (Hagain (init_database (Some (disk c1)))) as [rs ->]; [by rewrite Hdisk|].
  eexists _, _. split; [reflexivity|]. cbn [new total disk changes interests].
  rewrite Hdisk. repeat split. unfold refresh. by rewrite length_map.
Qed.

Lemma run_sync_reachable read_csv now c :
  reachable c -> reachable (snd (run_sync read_csv now (Some (disk c)))).
Proof.
  intros Hc. unfold run_sync. destruct (fetch_all_data read_csv) as [data|e].
  - apply reach_sync, reach_reopen, Hc.
  - apply reach_reopen, Hc.
Qed.

Lemma run_all_reachable runs c :
  reachable c ->
  exists c', reachable c' /\ run_all runs (Some (disk c)) = Some (disk c').
Proof.
  revert c. induction runs as [|[read_csv now] runs IH]; intros c Hc; cbn [run_all].
  - eauto.
  - apply IH. by apply run_sync_reachable.
Qed.

(** X16: after any series of runs of the program from no database file,
    each with its own feed and clock and each returning or raising, the
    file holds pairwise distinct text hashes, one "new" event per record
    with the hash and the [first_seen] of the record as [detected_at],
    and both tables numbered from 1 without gaps. *)
Theorem run_all_store runs db :
  run_all runs None = Some db -> audit_ok db /\ numbered db.
Proof.
  intros Hruns.
  assert (exists c, reachable c /\ db = disk c) as (c & Hc & ->).
  { destruct runs as [|[read_csv now] runs]; [discriminate|]. cbn [run_all] in Hruns.
    assert (reachable (snd (run_sync read_csv now None))) as Hfirst.
    { unfold run_sync. destruct (fetch_all_data read_csv);
        [apply reach_sync|]; apply reach_init. }
    destruct (run_all_reachable runs _ Hfirst) as (c' & Hc' & Heq).
    exists c'. split; [exact Hc'|]. congruence. }
  split.
  - by destruct (reachable_invariant audit_ok audit_ok_empty audit_ok_step c Hc).
  - destruct (reachable_invariant numbered) with (c := c) as [Hd _]; try assumption.
    + split; reflexivity.
    + intros now stats db' r _. apply numbered_step.
Qed.

(** X6: the exceptions of a run, binds included, are those of the
    normalizer and the OverflowError of a bind, and no others: when the
    run raises [e], either serializing some row of the dataset raised
    [e], or [e] is OverflowError and some cell of the dataset is an int
    outside the signed 64 bits; no lookup in a record fails and no INSERT
    violates the UNIQUE constraint, whatever the store holds. *)
Theorem sync_to_database_checked_raises data now c e :
  fst (sync_to_database_checked data now c) = Raise e ->
  (exists cr, In cr (rows_of data) /\ json_dumps (snd cr) = Raise e) \/
  (e = OverflowError /\ ~ int64_data data).
Proof.
  unfold sync_to_database_checked, mbind, M_bind.
  destruct (sync_categories_checked now data (mk_stats 0 0) c) as [[stats|e'] c'] eqn:Hc;
    [discriminate|].
  cbn [fst]. intros [= ->].
  destruct (sync_categories_checked_raises now data (mk_stats 0 0) c e) as [Hex|Hover].
  { by rewrite Hc. }
  - left. apply Exists_exists in Hex as (cr & Hin & Hcr).
    exists cr. split; [by apply list_elem_of_In|].
    by apply normalize_row_Raise in Hcr.
  - right. exact Hover.
Qed.

End Further.

(** ** The theorems at the sample data *)

#[local] Existing Instance sample_runtime.

(** The first scenario of section 8: one row, run twice. *)
Example scenario_run1 :
  sync_to_database [("donations", [row_a])] now1 (init_database None)
  = (Ok (mk_stats 1 1),
     let db :=
       mk_database
         [ Interests.mk 1 (VStr "ed3511490ecd5a316bfdb349df3c90a7") (VStr "donations")
             (VStr "A") (VStr "P") VNone VNone (VStr "gift") (VInt 100) (VStr "X")
             (VStr "2024-01-01") VNone VNone (VStr "{}") (VStr now1) (VStr now1) ]
         [ Changes.mk 1 (VStr "ed3511490ecd5a316bfdb349df3c90a7") (VStr "new")
             (VStr now1) VNone (VStr "gift") (VStr "A") (VStr "donations") ] in
     mk_connection db db).
Proof. vm_compute. reflexivity. Qed.

Example scenario_run2 :
  let c1 := snd (sync_to_database [("donations", [row_a])] now1 (init_database None)) in
  sync_to_database [("donations", [row_a])] now2 c1
  = (Ok (mk_stats 0 1),
     let db :=
       mk_database
         [ Interests.mk 1 (VStr "ed3511490ecd5a316bfdb349df3c90a7") (VStr "donations")
             (VStr "A") (VStr "P") VNone VNone (VStr "gift") (VInt 100) (VStr "X")
             (VStr "2024-01-01") VNone VNone (VStr "{}") (VStr now1) (VStr now2) ]
         [ Changes.mk 1 (VStr "ed3511490ecd5a316bfdb349df3c90a7") (VStr "new")
             (VStr now1) VNone (VStr "gift") (VStr "A") (VStr "donations") ] in
     mk_connection db db).
Proof. vm_compute. reflexivity. Qed.


(** The same dataset run twice from a fresh database. *)
Lemma sync_to_database_twice_witness :
  let run1 := sync_to_database repeated_data now1 (init_database None) in
  run1 = (Ok (mk_stats 2 3), snd run1) /\
  exists stats2 c2 records,
    sync_to_database repeated_data now2 (snd run1) = (Ok stats2, c2) /\
    new stats2 = 0 /\
    total stats2 = total (mk_stats 2 3) /\
    length (interests (view c2)) = length (interests (view (snd run1))) /\
    changes (view c2) = changes (view (snd run1)) /\
    Forall2 normalizes (rows_of repeated_data) records /\
    interests (view c2) = refresh now2 records (interests (view (snd run1))) /\
    disk c2 = view c2.
Proof.
  split; [vm_compute; reflexivity|].
  apply (sync_to_database_twice repeated_data now1 now2 (init_database None)).
  vm_compute; reflexivity.
Defined.

(** Two runs, the second on the reopened file. *)
Lemma reachable_hash_unique_witness :
  let c1 := snd (sync_to_database repeated_data now1 (init_database None)) in
  let c2 := snd (sync_to_database sample_data now2 (init_database (Some (disk c1)))) in
  reachable c2 /\
  NoDup (map Interests.hash (interests (disk c2))) /\
  NoDup (map Interests.hash (interests (view c2))).
Proof.
  cbv zeta.
  split; [apply reach_sync, reach_reopen, reach_sync, reach_init|].
  apply reachable_hash_unique.
  apply reach_sync, reach_reopen, reach_sync, reach_init.
Defined.

(** Two runs on one connection, read on the committed database. *)
Lemma reachable_audit_complete_witness :
  let c1 := snd (sync_to_database repeated_data now1 (init_database None)) in
  let c2 := snd (sync_to_database sample_data now2 c1) in
  (reachable c2 /\ (disk c2 = disk c2 \/ disk c2 = view c2)) /\
  length (filter (fun e => Changes.change_type e = VStr "new") (changes (disk c2))) =
    length (remove_dups (map Interests.hash (interests (disk c2)))) /\
  map Changes.interest_hash (changes (disk c2)) =
    map Interests.hash (interests (disk c2)).
Proof.
  cbv zeta.
  split; [split; [apply reach_sync, reach_sync, reach_init | left; reflexivity]|].
  apply (reachable_audit_complete
           (snd (sync_to_database sample_data now2
                   (snd (sync_to_database repeated_data now1 (init_database None)))))).
  - apply reach_sync, reach_sync, reach_init.
  - left; reflexivity.
Defined.

(** Two releases of one row: the party and the registration date differ,
    the hash does not. *)
Lemma hash_determined_by_key_fields_witness :
  (normalizes ("donations", row_a) (sample_record row_a "donations") /\
   normalizes ("donations", row_a') (sample_record row_a' "donations") /\
   forall f, In f key_fields ->
             sample_record row_a "donations" !! f = sample_record row_a' "donations" !! f) /\
  sample_record row_a "donations" !! "hash" = sample_record row_a' "donations" !! "hash".
Proof.
  assert (forall f, In f key_fields ->
                    sample_record row_a "donations" !! f
                    = sample_record row_a' "donations" !! f) as Hsame.
  { intros f Hf. unfold key_fields in Hf. cbn [In] in Hf.
    repeat (destruct Hf as [<-|Hf]; [vm_compute; reflexivity|]). destruct Hf. }
  split; [split; [reflexivity | split; [reflexivity | exact Hsame]]|].
  apply (hash_determined_by_key_fields ("donations", row_a) ("donations", row_a')).
  - reflexivity.
  - reflexivity.
  - exact Hsame.
Defined.

(** The resolution of the payer on a row whose [payer_name] is zero. *)
Lemma payer_name_falls_back_on_falsy_witness :
  normalize_row zero_payer_row "donations" = Ok (sample_record zero_payer_row "donations") /\
  sample_record zero_payer_row "donations" !! "payer_name" =
    Some (if py_bool (series_get zero_payer_row "payer_name")
          then series_get zero_payer_row "payer_name"
          else series_get zero_payer_row "donor_name").
Proof.
  split; [reflexivity|].
  apply (payer_name_falls_back_on_falsy zero_payer_row "donations").
  reflexivity.
Defined.


(** The category gifts_uk of the sample feed, fetched with no rows. *)
Lemma empty_category_contributes_nothing_witness :
  fetched_nothing sample_read_csv "gifts_uk" = true /\
  exists data,
    fetch_all_data sample_read_csv = Ok data /\
    fetch_keys sample_read_csv
      (filter (fun k => k <> "gifts_uk") (map fst CATEGORIES)) [] = Ok data /\
    Forall (fun cr => fst cr <> "gifts_uk") (rows_of data) /\
    forall pre post now c,
      sync_to_database (pre ++ ("gifts_uk", []) :: post) now c =
      sync_to_database (pre ++ post) now c.
Proof.
  split; [vm_compute; reflexivity|].
  apply (empty_category_contributes_nothing sample_read_csv "gifts_uk").
  vm_compute; reflexivity.
Defined.

(** What the sample feed amounts to: ten categories asked for, nine with
    no data, none of them an error. *)
Example fetch_all_data_sample :
  fetch_all_data sample_read_csv = Ok [("donations", [row_a; row_b])].
Proof. vm_compute. reflexivity. Qed.

(** ** Where the code departs from the specification *)

(** C6: a row without [value], [payer_name] and [donor_name] normalizes,
    and its record holds [None] under the names the row lacks, so that
    the default of [row.get(f, '')] in [compute_hash] never applies: the
    string that is hashed has "None" where the specification has an empty
    placeholder, and the identity hash is the digest of that string. *)
Theorem missing_fields_hash_as_None :
  normalize_row sparse_row "donations" = Ok (sample_record sparse_row "donations") /\
  sample_record sparse_row "donations" !! "value" = Some VNone /\
  sample_record sparse_row "donations" !! "payer_name" = Some VNone /\
  hash_str (record_display sparse_row "donations" "{}")
  = "A|donations|gift|None|None|2024-01-01" /\
  sample_record sparse_row "donations" !! "hash"
  = Some (VStr "59e57ba4d9c5100dc9a6f2de2da2f782") /\
  MD5.hexdigest "A|donations|gift|||2024-01-01" = "b2fd6dc311fcfef671d04c9b55f531d7".
Proof. repeat split; vm_compute; reflexivity. Qed.

(** On a dict that lacks the names, [compute_hash] does use the empty
    placeholders. *)
Example compute_hash_placeholders :
  hash_str (list_to_map [("member", VStr "A"); ("category", VStr "donations");
                         ("summary", VStr "gift"); ("received_date", VStr "2024-01-01")])
  = "A|donations|gift|||2024-01-01".
Proof. vm_compute. reflexivity. Qed.


(** C8, against the claim: the row has a [payer_name], the number zero,
    and the record nevertheless takes its payer from [donor_name]. *)
Lemma payer_name_zero_falls_back :
  In "payer_name" (map fst zero_payer_row) /\
  series_get zero_payer_row "payer_name" = VInt 0 /\
  exists record,
    normalize_row zero_payer_row "donations" = Ok record /\
    record !! "payer_name" = Some (VStr "D") /\
    record !! "payer_name" <> Some (series_get zero_payer_row "payer_name").
Proof.
  split; [cbn; tauto|]. split; [reflexivity|].
  exists (sample_record zero_payer_row "donations").
  split; [reflexivity|]. split; [vm_compute; reflexivity|].
  vm_compute. discriminate.
Qed.

(** ** The further properties at the sample data *)

(** A frame of two rows, the second without value and payer. *)
Lemma process_earnings_data_records_witness :
  process_earnings_data [row_a; sparse_row] "donations"
  = Ok [sample_record row_a "donations"; sample_record sparse_row "donations"] /\
  length [sample_record row_a "donations"; sample_record sparse_row "donations"]
  = length [row_a; sparse_row] /\
  Forall2 (record_from "donations") [row_a; sparse_row]
    [sample_record row_a "donations"; sample_record sparse_row "donations"].
Proof.
  split; [reflexivity|].
  apply (process_earnings_data_records [row_a; sparse_row] "donations").
  reflexivity.
Defined.

(** The value 100 as a number and as text. *)
Lemma hash_sees_only_text_witness :
  sample_record row_a "donations" !! "hash" = sample_record row_a_text "donations" !! "hash".
Proof.
  apply (hash_sees_only_text row_a row_a_text "donations").
  - reflexivity.
  - reflexivity.
  - intros k Hk. cbn [In] in Hk.
    repeat (destruct Hk as [<-|Hk]; [vm_compute; reflexivity|]). destruct Hk.
  - vm_compute; reflexivity.
Defined.

(** "gift|cash" with "100", and "gift" with "cash|100". *)
Lemma hash_bar_moves_witness :
  sample_record row_bar_left "donations" !! "hash"
  = sample_record row_bar_right "donations" !! "hash".
Proof.
  apply (hash_bar_moves row_bar_left row_bar_right "donations" _ _ "gift" "cash" "100");
    reflexivity.
Defined.

(** A run whose second row holds 2^63. *)
Lemma sync_to_database_checked_raises_witness :
  fst (sync_to_database_checked [("donations", [row_a; big_row])] now1 (init_database None))
  = Raise OverflowError /\
  ((exists cr, In cr (rows_of [("donations", [row_a; big_row])]) /\
               json_dumps (snd cr) = Raise OverflowError) \/
   (OverflowError = OverflowError /\ ~ int64_data [("donations", [row_a; big_row])])).
Proof.
  split; [vm_compute; reflexivity|].
  apply (sync_to_database_checked_raises [("donations", [row_a; big_row])] now1
           (init_database None)).
  vm_compute; reflexivity.
Defined.

(** Two runs on one connection. *)
Lemma reachable_numbered_witness :
  let c1 := snd (sync_to_database repeated_data now1 (init_database None)) in
  let c2 := snd (sync_to_database sample_data now2 c1) in
  reachable c2 /\ numbered (disk c2).
Proof.
  cbv zeta. split; [apply reach_sync, reach_sync, reach_init|].
  apply (reachable_numbered
           (snd (sync_to_database sample_data now2
                   (snd (sync_to_database repeated_data now1 (init_database None)))))).
  - apply reach_sync, reach_sync, reach_init.
  - left; reflexivity.
Defined.

(** Three rows of two hashes on a database that holds one of the two. *)
Lemma sync_to_database_new_count_witness :
  (Forall2 normalizes (rows_of repeated_data) repeated_records /\
   int64_data repeated_data) /\
  exists stats c',
    sync_to_database_checked repeated_data now1 (init_database (Some legacy_database))
    = (Ok stats, c') /\
    new stats = Z.of_nat (length (unseen_hashes repeated_records legacy_database)) /\
    0 <= new stats <= total stats.
Proof.
  split; [split; repeat constructor|].
  apply (sync_to_database_new_count repeated_data now1
           (init_database (Some legacy_database)) repeated_records);
    repeat constructor.
Defined.

Example new_count_on_legacy_database :
  fst (sync_to_database repeated_data now1 (init_database (Some legacy_database)))
  = Ok (mk_stats 1 3).
Proof. vm_compute. reflexivity. Qed.

Lemma sync_to_database_marks_seen_witness :
  (Forall2 normalizes (rows_of repeated_data) repeated_records /\
   int64_data repeated_data) /\
  let db := view (snd (sync_to_database_checked repeated_data now1
                         (init_database (Some legacy_database)))) in
  Forall (fun record =>
            exists r, In r (interests db) /\
                      Interests.hash r = field record "hash" /\
                      Interests.last_seen r = VStr now1)
         repeated_records /\
  Forall (fun r => seen_in repeated_records r = true -> Interests.last_seen r = VStr now1)
         (interests db).
Proof.
  split; [split; repeat constructor|].
  apply (sync_to_database_marks_seen repeated_data now1
           (init_database (Some legacy_database)) repeated_records);
    repeat constructor.
Defined.

Lemma sync_to_database_keeps_hash_unique_witness :
  hash_unique (view (init_database (Some legacy_database))) /\
  hash_unique (view (snd (sync_to_database repeated_data now1
                            (init_database (Some legacy_database))))).
Proof.
  assert (hash_unique (view (init_database (Some legacy_database)))) as Hu.
  { intros i j r1 r2 H1 H2 He.
    destruct i as [|[|i]], j as [|[|j]]; cbn in H1, H2; try discriminate;
      try reflexivity; injection H1 as <-; injection H2 as <-; discriminate He. }
  split; [exact Hu|].
  apply (sync_to_database_keeps_hash_unique repeated_data now1
           (init_database (Some legacy_database))).
  exact Hu.
Defined.

Lemma run_sync_outage_witness :
  (forall url, match outage_read_csv url with
               | Ok df => df_empty df = true
               | Raise _ => True
               end) /\
  run_sync outage_read_csv now1 (Some legacy_database)
  = (Ok (mk_stats 0 0), init_database (Some legacy_database)).
Proof.
  split; [intros url; exact I|].
  apply (run_sync_outage outage_read_csv now1 (Some legacy_database)).
  intros url. exact I.
Defined.

Lemma run_sync_twice_witness :
  let run1 := run_sync sample_read_csv now1 None in
  run1 = (Ok (mk_stats 2 2), snd run1) /\
  exists stats2 c2,
    run_sync sample_read_csv now2 (Some (disk (snd run1))) = (Ok stats2, c2) /\
    new stats2 = 0 /\
    total stats2 = total (mk_stats 2 2) /\
    changes (disk c2) = changes (disk (snd run1)) /\
    length (interests (disk c2)) = length (interests (disk (snd run1))).
Proof.
  split; [vm_compute; reflexivity|].
  apply (run_sync_twice sample_read_csv now1 now2 None).
  vm_compute; reflexivity.
Defined.

(** A run on the sample feed, then a run during an outage. *)
Lemma run_all_store_witness :
  let db :=
    disk (snd (run_sync outage_read_csv now2
                 (Some (disk (snd (run_sync sample_read_csv now1 None)))))) in
  run_all [(sample_read_csv, now1); (outage_read_csv, now2)] None = Some db /\
  audit_ok db /\ numbered db.
Proof.
  cbv zeta. split; [reflexivity|].
  apply (run_all_store [(sample_read_csv, now1); (outage_read_csv, now2)]).
  reflexivity.
Defined.


(** The row before the failing one was inserted in the transaction, which
    is never committed. *)
Example overflow_commits_nothing :
  let run := sync_to_database_checked [("donations", [row_a; big_row])] now1
               (init_database None) in
  fst run = Raise OverflowError /\
  disk (snd run) = empty_database /\
  length (interests (view (snd run))) = 1%nat.
Proof. vm_compute. repeat split. Qed.
